(** * CloudReads / Book Vault client: catalog filtering and bookmark state

    A shallow embedding of the client-side logic of the digital-library
    front end: the Dashboard's search and filter over the static catalog
    ([pages/Dashboard]), the bookmark context ([context/LibraryContext]),
    and the pages that read them ([BookDetails], [Bookmarks], [Home],
    [Profile]).

    The static catalog [books.json] is data, not code: every page function
    below takes it as the section variable [booksData], so each theorem holds
    for every catalog.  React state cells ([useState]) are modelled by
    explicit state passing; a page component is a function from the state it
    reads to the view it returns.

    Two things belong to the JavaScript engine and not to the pages, and are
    parameters as well: the lower-case conversion of strings (a record
    [JS.CaseConversion]) and the largest array the engine can build by
    spreading ([spreadLimit]).

    Strings that the code only compares with [===] or only displays (ids,
    genres, languages, paths, the review box) are Rocq strings.  The strings
    that go through [toLowerCase] and [includes] (a book's title and author,
    the Dashboard's search query) are sequences of UTF-16 code units. *)

From Stdlib Require Import Ascii NArith ZArith.
From stdpp Require Import base list strings gmap.

(** A JavaScript string as its sequence of UTF-16 code units. *)
Abbreviation jsstring := (list N).

(** The code units of a literal written with ASCII characters. *)
Definition lit (s : string) : jsstring :=
  N_of_ascii <$> String.list_ascii_of_string s.

(** ** JavaScript string and array builtins used by the pages *)

Module JS.

(** [String.prototype.toLowerCase]: the lower-case conversion of ECMA-262,
    a function of the whole string (it looks at the context of a character)
    that is not written out here.  All that the pages need to know about it
    is that the empty string stays empty. *)
Record CaseConversion := mkCaseConversion {
  toLowerCase : jsstring → jsstring;
  toLowerCase_empty : toLowerCase [] = []
}.

(** [s.startsWith(t)]: the code units of [t] are the first ones of [s]. *)
Fixpoint startsWith (s t : jsstring) : bool :=
  match t, s with
  | [], _ => true
  | _ :: _, [] => false
  | a :: t', b :: s' => (a =? b)%N && startsWith s' t'
  end.

(** [s.includes(t)] on strings: the code units of [t] occur in [s] at some
    position. *)
Fixpoint includes (s t : jsstring) : bool :=
  startsWith s t ||
  match s with
  | [] => false
  | _ :: s' => includes s' t
  end.

(** [s === p] where [p] may be [undefined] (an absent route parameter). *)
Definition strict_eq (s : string) (p : option string) : bool :=
  match p with
  | Some t => String.eqb s t
  | None => false
  end.

(** [arr.find(pred)]: the first element satisfying [pred], or [undefined]. *)
Fixpoint find {A} (pred : A → bool) (arr : list A) : option A :=
  match arr with
  | [] => None
  | x :: rest => if pred x then Some x else find pred rest
  end.

(** [arr.slice(start, end)]: a negative index counts from the end of the
    array, and both indices are clamped to the array's bounds. *)
Definition relativeIndex (i : Z) (len : nat) : nat :=
  if (i <? 0)%Z then Z.to_nat (Z.max (Z.of_nat len + i) 0)
  else Nat.min (Z.to_nat i) len.

Definition slice {A} (start stop : Z) (arr : list A) : list A :=
  let k := relativeIndex start (length arr) in
  let final := relativeIndex stop (length arr) in
  take (final - k) (drop k arr).

(** [arr.includes(x)] on an array of strings. *)
Definition arr_includes (arr : list string) (x : string) : bool :=
  bool_decide (x ∈ arr).

End JS.

(** The substring relation that [JS.includes] decides. *)
Definition contains (s t : jsstring) : Prop :=
  ∃ pre post, s = pre ++ t ++ post.

(** ** Data model *)

(** A number of the catalog, as the engine holds it after reading the JSON
    file: a value that is an integer, or a value that is not (a fraction, or
    an infinity from a literal too large for a double).  The pages hand a
    review's rating to [Array(...)] only, which tells no more apart. *)
Inductive JSNumber :=
| Integral (z : Z)
| NonIntegral.

Record Review := mkReview {
  user : string;
  rating : JSNumber;
  comment : string
}.

Record Book := mkBook {
  id : string;
  title : jsstring;
  author : jsstring;
  genre : string;
  year : Z;
  language : string;
  cover : string;
  description : string;
  reviews : list Review
}.

(** ** The bookmark context ([LibraryProvider]) *)

(** [const [bookmarks, setBookmarks] = useState<string[]>([])] *)
Definition initialBookmarks : list string := [].

(** [setBookmarks(prev => [...prev, bookId])] *)
Definition addBookmark (bookId : string) (prev : list string) : list string :=
  prev ++ [bookId].

(** [setBookmarks(prev => prev.filter(id => id !== bookId))] *)
Definition removeBookmark (bookId : string) (prev : list string) : list string :=
  filter (λ i, i ≠ bookId) prev.

(** [bookmarks.includes(bookId)] *)
Definition isBookmarked (bookmarks : list string) (bookId : string) : bool :=
  JS.arr_includes bookmarks bookId.

(** The click handler shared by [BookCard] and [BookDetails]:
    [bookmarked ? removeBookmark(id) : addBookmark(id)]. *)
Definition toggleBookmark (bookId : string) (bookmarks : list string) : list string :=
  if isBookmarked bookmarks bookId
  then removeBookmark bookId bookmarks
  else addBookmark bookId bookmarks.

(** The same handler with the closure spelled out: [bookmarked] is the value
    of [isBookmarked(id)] computed when the component was rendered, while
    the updater it queues runs on the list as it is when the update is
    applied.  [toggleBookmark] is the case where the two lists agree. *)
Definition clickHandler (bookmarked : bool) (bookId : string)
    (prev : list string) : list string :=
  if bookmarked then removeBookmark bookId prev else addBookmark bookId prev.

(** Calls on the context, as a client may issue them one after another. *)
Inductive LibraryCall :=
| AddBookmark (bookId : string)
| RemoveBookmark (bookId : string).

Definition applyCall (c : LibraryCall) (bookmarks : list string) : list string :=
  match c with
  | AddBookmark b => addBookmark b bookmarks
  | RemoveBookmark b => removeBookmark b bookmarks
  end.

Fixpoint runCalls (cs : list LibraryCall) (bookmarks : list string) : list string :=
  match cs with
  | [] => bookmarks
  | c :: rest => runCalls rest (applyCall c bookmarks)
  end.

(** Every [addBookmark] of the sequence is issued on an identifier that is
    not bookmarked at that moment, as the guarded click handlers do. *)
Fixpoint guardedCalls (cs : list LibraryCall) (bookmarks : list string) : bool :=
  match cs with
  | [] => true
  | c :: rest =>
      match c with
      | AddBookmark b => negb (isBookmarked bookmarks b)
      | RemoveBookmark _ => true
      end && guardedCalls rest (applyCall c bookmarks)
  end.

(** The call that the click handler makes in a given state. *)
Definition toggleCall (b : string) (bm : list string) : LibraryCall :=
  if isBookmarked bm b then RemoveBookmark b else AddBookmark b.

(** The [Profile] page shows [bookmarks.length]. *)
Definition profileBookmarkCount (bookmarks : list string) : nat := length bookmarks.

(** ** Rendering the reviews of a book *)

(** [[...Array(len)]]: [Array(len)] throws a [RangeError] unless [len] is an
    integer from 0 to 2^32 - 1, and spreading the array into a dense one
    completes only up to a length that depends on the engine, [spreadLimit].
    The result is the length of the dense array, [None] when the expression
    does not complete. *)
Definition spreadArray (spreadLimit : Z) (len : JSNumber) : option nat :=
  match len with
  | Integral z =>
      if ((0 <=? z) && (z <? 2 ^ 32) && (z <=? spreadLimit))%Z
      then Some (Z.to_nat z) else None
  | NonIntegral => None
  end.

(** One entry of the reviews list of [BookDetails]: the user, one star per
    element of [[...Array(review.rating)]], and the comment. *)
Record ReviewRow := mkReviewRow {
  rowUser : string;
  rowStars : nat;
  rowComment : string
}.

Definition reviewRow (spreadLimit : Z) (review : Review) : option ReviewRow :=
  n ← spreadArray spreadLimit (rating review);
  Some {| rowUser := user review; rowStars := n; rowComment := comment review |}.

(** [book.reviews.map((review, i) => ...)]: the first throw ends it. *)
Definition reviewRows (spreadLimit : Z) (rs : list Review) : option (list ReviewRow) :=
  mapM (reviewRow spreadLimit) rs.

(** A rating that [reviewRow] can draw. *)
Definition validRating (spreadLimit : Z) (r : Review) : Prop :=
  ∃ z, rating r = Integral z ∧ (0 ≤ z < 2 ^ 32)%Z ∧ (z ≤ spreadLimit)%Z.

(** ** Pages over the static catalog *)

Section Pages.

(** The engine's [toLowerCase] and its limit on spread arrays. *)
Variable caseConv : JS.CaseConversion.
Variable spreadLimit : Z.

(** [import booksData from '@/data/books.json'] *)
Variable booksData : list Book.

(** *** Dashboard *)

Definition matchesSearch (searchQuery : jsstring) (book : Book) : bool :=
  JS.includes (JS.toLowerCase caseConv (title book)) (JS.toLowerCase caseConv searchQuery) ||
  JS.includes (JS.toLowerCase caseConv (author book)) (JS.toLowerCase caseConv searchQuery).

Definition matchesGenre (genreFilter : string) (book : Book) : bool :=
  String.eqb genreFilter "all" || String.eqb (genre book) genreFilter.

Definition matchesLanguage (languageFilter : string) (book : Book) : bool :=
  String.eqb languageFilter "all" || String.eqb (language book) languageFilter.

Definition filteredBooks (searchQuery : jsstring)
    (genreFilter languageFilter : string) : list Book :=
  filter (λ book, matchesSearch searchQuery book
                  && matchesGenre genreFilter book
                  && matchesLanguage languageFilter book) booksData.

(** The grid of cards and the "No books found matching your criteria."
    paragraph, shown when [filteredBooks.length === 0]. *)
Record DashboardView := mkDashboardView {
  dashboardCards : list Book;
  noBooksFound : bool
}.

Definition Dashboard (searchQuery : jsstring)
    (genreFilter languageFilter : string) : DashboardView :=
  let fb := filteredBooks searchQuery genreFilter languageFilter in
  {| dashboardCards := fb; noBooksFound := Nat.eqb (length fb) 0 |}.

(** *** Bookmarks *)

Definition bookmarkedBooks (bookmarks : list string) : list Book :=
  filter (λ book, JS.arr_includes bookmarks (id book)) booksData.

Inductive BookmarksView :=
| BookmarksGrid (cards : list Book)
| NoBookmarksYet.

Definition Bookmarks (bookmarks : list string) : BookmarksView :=
  let bb := bookmarkedBooks bookmarks in
  if Nat.ltb 0 (length bb) then BookmarksGrid bb else NoBookmarksYet.

(** *** Home *)

Definition featuredBooks : list Book := JS.slice 0 6 booksData.

Record HomeView := mkHomeView {
  homeSearchValue : string;
  homeFeatured : list Book
}.

Definition Home (searchQuery : string) : HomeView :=
  {| homeSearchValue := searchQuery; homeFeatured := featuredBooks |}.

(** *** BookDetails *)

(** What the page puts on screen for a book that was found. *)
Record BookPage := mkBookPage {
  shownCover : string;
  shownTitle : jsstring;
  shownAuthor : jsstring;
  shownGenre : string;
  shownYear : Z;
  shownDescription : string;
  shownBookmarked : bool;
  shownReviews : list ReviewRow;
  reviewBox : string;
  ratingStars : Z
}.

(** The three ways a render of the page ends: the fallback paragraph, the
    page of a book, or no page at all because drawing the reviews failed
    ([Array(rating)] threw its [RangeError], or the engine gave up on the
    spread array). *)
Inductive BookDetailsView :=
| BookNotFound
| BookFound (page : BookPage)
| RenderThrows.

Definition bookPage (book : Book) (bookmarks : list string)
    (rows : list ReviewRow) (review : string) (ratingSel : Z) : BookPage :=
  {| shownCover := cover book;
     shownTitle := title book;
     shownAuthor := author book;
     shownGenre := genre book;
     shownYear := year book;
     shownDescription := description book;
     shownBookmarked := isBookmarked bookmarks (id book);
     shownReviews := rows;
     reviewBox := review;
     ratingStars := ratingSel |}.

(** [idParam] is [useParams().id]; [review] and [ratingSel] are the page's
    two state cells. *)
Definition BookDetails (idParam : option string) (bookmarks : list string)
    (review : string) (ratingSel : Z) : BookDetailsView :=
  match JS.find (λ b, JS.strict_eq (id b) idParam) booksData with
  | None => BookNotFound
  | Some book =>
      match reviewRows spreadLimit (reviews book) with
      | Some rows => BookFound (bookPage book bookmarks rows review ratingSel)
      | None => RenderThrows
      end
  end.

End Pages.

(** What it means for a page to show the details of [book]: each field on
    screen is the book's, the bookmark button reflects [bookmarks], and the
    reviews are listed one row each, in order, with as many stars as the
    review's rating. *)
Definition showsReviews (rs : list Review) (rows : list ReviewRow) : Prop :=
  Forall2 (λ r row, rowUser row = user r ∧
                    rating r = Integral (Z.of_nat (rowStars row)) ∧
                    rowComment row = comment r) rs rows.

Definition showsDetails (book : Book) (bookmarks : list string)
    (review : string) (ratingSel : Z) (page : BookPage) : Prop :=
  shownCover page = cover book ∧
  shownTitle page = title book ∧
  shownAuthor page = author book ∧
  shownGenre page = genre book ∧
  shownYear page = year book ∧
  shownDescription page = description book ∧
  (shownBookmarked page = true ↔ id book ∈ bookmarks) ∧
  showsReviews (reviews book) (shownReviews page) ∧
  reviewBox page = review ∧
  ratingStars page = ratingSel.

(** ** Client state and the operations the pages offer *)

(** [toast({ title, description })] *)
Record Toast := mkToast {
  toastTitle : string;
  toastDescription : string
}.

(** Everything the browser session holds: the imported catalog array, the
    [LibraryProvider] cell, the bookmarks list as it was at the last render
    (the one the click handlers on screen have computed [bookmarked] from),
    the toasts raised so far, and the state cells of [BookDetails],
    [Dashboard] and [Home]. *)
Record ClientState := mkClientState {
  stBooksData : list Book;
  stBookmarks : list string;
  stRendered : list string;
  stToasts : list Toast;
  stReview : string;
  stRating : Z;
  stSearchQuery : jsstring;
  stGenreFilter : string;
  stLanguageFilter : string;
  stHomeSearchQuery : string
}.

Definition initialState (catalog : list Book) : ClientState :=
  {| stBooksData := catalog;
     stBookmarks := initialBookmarks;
     stRendered := initialBookmarks;
     stToasts := [];
     stReview := "";
     stRating := 5;
     stSearchQuery := [];
     stGenreFilter := "all";
     stLanguageFilter := "all";
     stHomeSearchQuery := "" |}.

Definition toast (t : Toast) (s : ClientState) : ClientState :=
  {| stBooksData := stBooksData s;
     stBookmarks := stBookmarks s;
     stRendered := stRendered s;
     stToasts := stToasts s ++ [t];
     stReview := stReview s;
     stRating := stRating s;
     stSearchQuery := stSearchQuery s;
     stGenreFilter := stGenreFilter s;
     stLanguageFilter := stLanguageFilter s;
     stHomeSearchQuery := stHomeSearchQuery s |}.

Definition setReview (r : string) (s : ClientState) : ClientState :=
  {| stBooksData := stBooksData s;
     stBookmarks := stBookmarks s;
     stRendered := stRendered s;
     stToasts := stToasts s;
     stReview := r;
     stRating := stRating s;
     stSearchQuery := stSearchQuery s;
     stGenreFilter := stGenreFilter s;
     stLanguageFilter := stLanguageFilter s;
     stHomeSearchQuery := stHomeSearchQuery s |}.

Definition setRating (star : Z) (s : ClientState) : ClientState :=
  {| stBooksData := stBooksData s;
     stBookmarks := stBookmarks s;
     stRendered := stRendered s;
     stToasts := stToasts s;
     stReview := stReview s;
     stRating := star;
     stSearchQuery := stSearchQuery s;
     stGenreFilter := stGenreFilter s;
     stLanguageFilter := stLanguageFilter s;
     stHomeSearchQuery := stHomeSearchQuery s |}.

Definition setBookmarks (f : list string → list string) (s : ClientState) : ClientState :=
  {| stBooksData := stBooksData s;
     stBookmarks := f (stBookmarks s);
     stRendered := stRendered s;
     stToasts := stToasts s;
     stReview := stReview s;
     stRating := stRating s;
     stSearchQuery := stSearchQuery s;
     stGenreFilter := stGenreFilter s;
     stLanguageFilter := stLanguageFilter s;
     stHomeSearchQuery := stHomeSearchQuery s |}.

Definition setSearchQuery (q : jsstring) (s : ClientState) : ClientState :=
  {| stBooksData := stBooksData s;
     stBookmarks := stBookmarks s;
     stRendered := stRendered s;
     stToasts := stToasts s;
     stReview := stReview s;
     stRating := stRating s;
     stSearchQuery := q;
     stGenreFilter := stGenreFilter s;
     stLanguageFilter := stLanguageFilter s;
     stHomeSearchQuery := stHomeSearchQuery s |}.

Definition setGenreFilter (g : string) (s : ClientState) : ClientState :=
  {| stBooksData := stBooksData s;
     stBookmarks := stBookmarks s;
     stRendered := stRendered s;
     stToasts := stToasts s;
     stReview := stReview s;
     stRating := stRating s;
     stSearchQuery := stSearchQuery s;
     stGenreFilter := g;
     stLanguageFilter := stLanguageFilter s;
     stHomeSearchQuery := stHomeSearchQuery s |}.

Definition setLanguageFilter (l : string) (s : ClientState) : ClientState :=
  {| stBooksData := stBooksData s;
     stBookmarks := stBookmarks s;
     stRendered := stRendered s;
     stToasts := stToasts s;
     stReview := stReview s;
     stRating := stRating s;
     stSearchQuery := stSearchQuery s;
     stGenreFilter := stGenreFilter s;
     stLanguageFilter := l;
     stHomeSearchQuery := stHomeSearchQuery s |}.

Definition setHomeSearchQuery (q : string) (s : ClientState) : ClientState :=
  {| stBooksData := stBooksData s;
     stBookmarks := stBookmarks s;
     stRendered := stRendered s;
     stToasts := stToasts s;
     stReview := stReview s;
     stRating := stRating s;
     stSearchQuery := stSearchQuery s;
     stGenreFilter := stGenreFilter s;
     stLanguageFilter := stLanguageFilter s;
     stHomeSearchQuery := q |}.

(** A render of the components that read the bookmark context: the click
    handlers on screen are rebuilt from the current list. *)
Definition rerender (s : ClientState) : ClientState :=
  {| stBooksData := stBooksData s;
     stBookmarks := stBookmarks s;
     stRendered := stBookmarks s;
     stToasts := stToasts s;
     stReview := stReview s;
     stRating := stRating s;
     stSearchQuery := stSearchQuery s;
     stGenreFilter := stGenreFilter s;
     stLanguageFilter := stLanguageFilter s;
     stHomeSearchQuery := stHomeSearchQuery s |}.

(** [BookDetails.handleAddReview]:
    [toast({ title: 'Review Added!', ... }); setReview('')]. *)
Definition handleAddReview (s : ClientState) : ClientState :=
  setReview ""
    (toast {| toastTitle := "Review Added!";
              toastDescription := "Your review has been submitted." |} s).

(** [Recommendations.handleRegenerate] raises one toast at once and a second
    one from its timer. *)
Definition handleRegenerate (s : ClientState) : ClientState :=
  toast {| toastTitle := "Generating Recommendations...";
           toastDescription := "AI is analyzing your reading patterns." |} s.

Definition regenerateTimer (s : ClientState) : ClientState :=
  toast {| toastTitle := "Done!";
           toastDescription := "Your recommendations have been updated." |} s.

(** What a user can do on the pages that read the catalog or the bookmarks,
    and the render that React runs after a state change. *)
Inductive ClientOp :=
| OpAddBookmark (bookId : string)
| OpRemoveBookmark (bookId : string)
| OpClickBookmark (bookId : string)
| OpRender
| OpTypeReview (text : string)
| OpClickStar (star : Z)
| OpSubmitReview
| OpTypeSearch (q : jsstring)
| OpSelectGenre (g : string)
| OpSelectLanguage (l : string)
| OpTypeHomeSearch (q : string)
| OpRegenerate
| OpRegenerateTimer.

(** A click on a bookmark button runs the handler built at the last render:
    its test is on [stRendered], its update on the current list. *)
Definition step (op : ClientOp) (s : ClientState) : ClientState :=
  match op with
  | OpAddBookmark b => setBookmarks (addBookmark b) s
  | OpRemoveBookmark b => setBookmarks (removeBookmark b) s
  | OpClickBookmark b =>
      setBookmarks (clickHandler (isBookmarked (stRendered s) b) b) s
  | OpRender => rerender s
  | OpTypeReview text => setReview text s
  | OpClickStar star => setRating star s
  | OpSubmitReview => handleAddReview s
  | OpTypeSearch q => setSearchQuery q s
  | OpSelectGenre g => setGenreFilter g s
  | OpSelectLanguage l => setLanguageFilter l s
  | OpTypeHomeSearch q => setHomeSearchQuery q s
  | OpRegenerate => handleRegenerate s
  | OpRegenerateTimer => regenerateTimer s
  end.

Fixpoint run (ops : list ClientOp) (s : ClientState) : ClientState :=
  match ops with
  | [] => s
  | op :: rest => run rest (step op s)
  end.

(** The operations the rendered pages can trigger: all but a bare
    [addBookmark], which the pages only call behind the [bookmarked] test
    (that is [OpClickBookmark]). *)
Definition pageOp (op : ClientOp) : bool :=
  match op with
  | OpAddBookmark _ => false
  | _ => true
  end.

(** Every click on a bookmark button in the sequence comes after a render
    that has seen the current bookmarks. *)
Fixpoint clicksOnFreshRender (ops : list ClientOp) (s : ClientState) : bool :=
  match ops with
  | [] => true
  | op :: rest =>
      match op with
      | OpClickBookmark _ => bool_decide (stRendered s = stBookmarks s)
      | _ => true
      end && clicksOnFreshRender rest (step op s)
  end.

(** The [BookDetails] page as rendered from the client state. *)
Definition renderBookDetails (spreadLimit : Z) (idParam : option string)
    (s : ClientState) : BookDetailsView :=
  BookDetails spreadLimit (stBooksData s) idParam (stBookmarks s)
    (stReview s) (stRating s).

(** The reviews listed on a rendered [BookDetails] page, if the book was
    found and drawn. *)
Definition viewReviews (v : BookDetailsView) : option (list ReviewRow) :=
  match v with
  | BookFound page => Some (shownReviews page)
  | _ => None
  end.

#[global] Instance JSNumber_eq_dec : EqDecision JSNumber.
Proof. solve_decision. Defined.

#[global] Instance Review_eq_dec : EqDecision Review.
Proof. solve_decision. Defined.

#[global] Instance Book_eq_dec : EqDecision Book.
Proof. solve_decision. Defined.

(** ** Further page logic *)

(** [[...new Set(arr)]]: the distinct strings of [arr] in the order of
    their first occurrence; [seen] holds what the set already contains. *)
Fixpoint setSpreadFrom (seen arr : list string) : list string :=
  match arr with
  | [] => []
  | x :: rest =>
      if bool_decide (x ∈ seen) then setSpreadFrom seen rest
      else x :: setSpreadFrom (x :: seen) rest
  end.

Definition setSpread (arr : list string) : list string := setSpreadFrom [] arr.

(** [Dashboard]: [['all', ...new Set(booksData.map(book => book.genre))]] *)
Definition genres (booksData : list Book) : list string :=
  "all" :: setSpread (genre <$> booksData).

(** [Dashboard]: [['all', ...new Set(booksData.map(book => book.language))]] *)
Definition languages (booksData : list Book) : list string :=
  "all" :: setSpread (language <$> booksData).

(** [BookDetails], the rating buttons:
    [[1, 2, 3, 4, 5].map(star => ... star <= rating ? filled : outline)]. *)
Definition ratingButtons (ratingSel : Z) : list (Z * bool) :=
  (λ star, (star, (star <=? ratingSel)%Z)) <$> [1; 2; 3; 4; 5]%Z.

(** The page of [BookDetails] with the bookmark button in a given state. *)
Definition withBookmarked (flag : bool) (page : BookPage) : BookPage :=
  {| shownCover := shownCover page;
     shownTitle := shownTitle page;
     shownAuthor := shownAuthor page;
     shownGenre := shownGenre page;
     shownYear := shownYear page;
     shownDescription := shownDescription page;
     shownBookmarked := flag;
     shownReviews := shownReviews page;
     reviewBox := reviewBox page;
     ratingStars := ratingStars page |}.

(** [DashboardSidebar]: the menu and which entry is highlighted,
    [location.pathname === item.path]. *)
Record MenuItem := mkMenuItem {
  label : string;
  path : string
}.

Definition menuItems : list MenuItem :=
  [ {| label := "Dashboard"; path := "/dashboard" |};
    {| label := "Recommendations"; path := "/recommendations" |};
    {| label := "Bookmarks"; path := "/bookmarks" |};
    {| label := "Profile"; path := "/profile" |} ].

Definition isActive (pathname : string) (item : MenuItem) : bool :=
  String.eqb pathname (path item).

Definition activeItems (pathname : string) : list MenuItem :=
  filter (λ item, isActive pathname item) menuItems.

(** ** Sample data for running the definitions *)

(** A case conversion to run the examples with: it folds the code units of
    [A]..[Z] to [a]..[z] and keeps every other code unit, which is what the
    builtin does on strings of ASCII characters.  No theorem below depends on
    it; each holds for every [JS.CaseConversion]. *)
Definition asciiLower (c : N) : N :=
  if ((65 <=? c) && (c <=? 90))%N then (c + 32)%N else c.

Definition asciiLowerCase (s : jsstring) : jsstring := asciiLower <$> s.

Definition asciiCase : JS.CaseConversion :=
  {| JS.toLowerCase := asciiLowerCase; JS.toLowerCase_empty := eq_refl |}.

Definition sampleReview : Review :=
  {| user := "Asha"; rating := Integral 5; comment := "Loved it" |}.

Definition bookA : Book :=
  {| id := "1"; title := lit "The Midnight Library"; author := lit "Matt Haig";
     genre := "Fiction"; year := 2020; language := "English";
     cover := "/covers/1.jpg"; description := "A library between life and death.";
     reviews := [sampleReview] |}.

Definition bookB : Book :=
  {| id := "2"; title := lit "Cien anos de soledad";
     author := lit "Gabriel Garcia Marquez";
     genre := "Classic"; year := 1967; language := "Spanish";
     cover := "/covers/2.jpg"; description := "The Buendia family.";
     reviews := [] |}.

Definition bookC : Book :=
  {| id := "3"; title := lit "Dune"; author := lit "Frank Herbert";
     genre := "Science Fiction"; year := 1965; language := "English";
     cover := "/covers/3.jpg"; description := "Arrakis.";
     reviews := [] |}.

Definition sampleCatalog : list Book := [bookA; bookB; bookC].

(** A catalog whose only book has a review with a negative rating. *)
Definition badReview : Review :=
  {| user := "Bo"; rating := Integral (-1); comment := "bad" |}.

Definition bookBad : Book :=
  {| id := "1"; title := lit "Dune"; author := lit "Frank Herbert";
     genre := "Science Fiction"; year := 1965; language := "English";
     cover := "/covers/3.jpg"; description := "Arrakis.";
     reviews := [badReview] |}.

Definition badCatalog : list Book := [bookBad].

(** ** Facts about the builtins *)

Lemma startsWith_spec (s t : jsstring) :
  JS.startsWith s t = true ↔ ∃ post, s = t ++ post.
Proof.
  revert s. induction t as [|a t IH]; intros s.
  - split; [intros _; by exists s | by destruct s].
  - destruct s as [|b s]; simpl.
    + split; [done | by intros [post ?]].
    + rewrite andb_true_iff, N.eqb_eq, IH. split.
      * intros [-> [post ->]]. by exists post.
      * intros [post [= -> ->]]. split; [done | by exists post].
Qed.

Lemma includes_nil (t : jsstring) :
  JS.includes [] t = JS.startsWith [] t || false.
Proof. reflexivity. Qed.

Lemma includes_cons (c : N) (s t : jsstring) :
  JS.includes (c :: s) t = JS.startsWith (c :: s) t || JS.includes s t.
Proof. reflexivity. Qed.

Lemma includes_spec (s t : jsstring) :
  JS.includes s t = true ↔ contains s t.
Proof.
  unfold contains. split.
  - induction s as [|c s IH].
    + rewrite includes_nil, orb_true_iff. intros [Hp|?]; [|done].
      apply startsWith_spec in Hp as [post Hpost]. by exists [], post.
    + rewrite includes_cons, orb_true_iff. intros [Hp|Hi].
      * apply startsWith_spec in Hp as [post Hpost]. by exists [], post.
      * destruct (IH Hi) as (pre & post & ->). by exists (c :: pre), post.
  - intros (pre & post & ->). induction pre as [|c pre IH].
    + assert (JS.startsWith (t ++ post) t = true) as Hp
        by (apply startsWith_spec; by exists post).
      simpl. destruct (t ++ post);
        [rewrite includes_nil | rewrite includes_cons]; by rewrite Hp.
    + change ((c :: pre) ++ t ++ post) with (c :: (pre ++ t ++ post)).
      rewrite includes_cons, IH. apply orb_true_r.
Qed.

Lemma includes_empty (s : jsstring) : JS.includes s [] = true.
Proof. apply includes_spec. by exists [], s. Qed.

Lemma find_None {A} (pred : A → bool) (arr : list A) :
  JS.find pred arr = None ↔ ∀ x, x ∈ arr → pred x = false.
Proof.
  induction arr as [|x arr IH]; simpl.
  - split; [intros _ x Hx; inversion Hx | done].
  - destruct (pred x) eqn:Hx.
    + split; [done | intros H; specialize (H x); rewrite Hx in H].
      discriminate H. left.
    + rewrite IH. split.
      * intros H y Hy. apply elem_of_cons in Hy as [->|Hy]; auto.
      * intros H y Hy. apply H. by right.
Qed.

Lemma find_Some {A} (pred : A → bool) (arr : list A) (x : A) :
  JS.find pred arr = Some x ↔
  ∃ before after, arr = before ++ x :: after ∧ pred x = true ∧
                  ∀ y, y ∈ before → pred y = false.
Proof.
  revert x. induction arr as [|a arr IH]; intros x; simpl.
  - split; [done | intros (before & after & Heq & _)].
    by destruct before.
  - destruct (pred a) eqn:Ha.
    + split.
      * intros [= <-]. exists [], arr. repeat split; [done|].
        intros y Hy. inversion Hy.
      * intros (before & after & Heq & Hx & Hbefore).
        destruct before as [|b before]; simplify_eq/=; [done|].
        rewrite Hbefore in Ha; [done | left].
    + rewrite IH. split.
      * intros (before & after & -> & Hx & Hbefore).
        exists (a :: before), after. repeat split; [done|].
        intros y Hy. apply elem_of_cons in Hy as [->|Hy]; auto.
      * intros (before & after & Heq & Hx & Hbefore).
        destruct before as [|b before]; simplify_eq/=; [congruence|].
        exists before, after. repeat split; [done|].
        intros y Hy. apply Hbefore. by right.
Qed.

Lemma slice_0 {A} (n : nat) (arr : list A) :
  JS.slice 0 (Z.of_nat n) arr = take n arr.
Proof.
  unfold JS.slice, JS.relativeIndex.
  replace (0 <? 0)%Z with false by done.
  replace (Z.of_nat n <? 0)%Z with false by (symmetry; apply Z.ltb_ge; lia).
  rewrite Nat2Z.id. change (Z.to_nat 0) with 0%nat.
  rewrite Nat.min_0_l, Nat.sub_0_r, drop_0.
  destruct (Nat.min_spec n (length arr)) as [[_ ->]|[Hle ->]]; [done|].
  by rewrite !take_ge by lia.
Qed.

Lemma filter_all {A} (P : A → Prop) `{!∀ x, Decision (P x)} (l : list A) :
  (∀ x, x ∈ l → P x) → filter P l = l.
Proof.
  induction l as [|x l IH]; intros Hall; [done|].
  rewrite filter_cons_True by (apply Hall; left).
  f_equal. apply IH. intros y Hy. apply Hall. by right.
Qed.

Lemma arr_includes_spec (arr : list string) (x : string) :
  JS.arr_includes arr x = true ↔ x ∈ arr.
Proof. apply bool_decide_eq_true. Qed.

Lemma isBookmarked_spec (bookmarks : list string) (b : string) :
  isBookmarked bookmarks b = true ↔ b ∈ bookmarks.
Proof. apply arr_includes_spec. Qed.

Lemma isBookmarked_false (bookmarks : list string) (b : string) :
  isBookmarked bookmarks b = false ↔ b ∉ bookmarks.
Proof.
  rewrite <-isBookmarked_spec. destruct (isBookmarked bookmarks b); naive_solver.
Qed.

(** ** Dashboard: search and filters *)

Lemma matchesSearch_spec (caseConv : JS.CaseConversion) (q : jsstring) (b : Book) :
  matchesSearch caseConv q b = true ↔
  contains (JS.toLowerCase caseConv (title b)) (JS.toLowerCase caseConv q) ∨
  contains (JS.toLowerCase caseConv (author b)) (JS.toLowerCase caseConv q).
Proof. unfold matchesSearch. by rewrite orb_true_iff, !includes_spec. Qed.

Lemma matchesGenre_spec (g : string) (b : Book) :
  matchesGenre g b = true ↔ g = "all" ∨ genre b = g.
Proof. unfold matchesGenre. by rewrite orb_true_iff, !String.eqb_eq. Qed.

Lemma matchesLanguage_spec (l : string) (b : Book) :
  matchesLanguage l b = true ↔ l = "all" ∨ language b = l.
Proof. unfold matchesLanguage. by rewrite orb_true_iff, !String.eqb_eq. Qed.

Section DashboardFacts.

Variable caseConv : JS.CaseConversion.
Variable booksData : list Book.

(** C1.  For every search query [q], genre filter [g] and language filter
    [l], a book is in the Dashboard's filtered result exactly when it is a
    book of the catalog, its lowercased title or its lowercased author
    contains the lowercased query, [g] is ["all"] or equals the book's genre,
    and [l] is ["all"] or equals the book's language.  Lowercasing is the
    engine's [toLowerCase], whatever it does to a string; containing is on
    code units, as [includes] is. *)
Theorem filteredBooks_iff (q : jsstring) (g l : string) (b : Book) :
  b ∈ filteredBooks caseConv booksData q g l ↔
  b ∈ booksData ∧
  (contains (JS.toLowerCase caseConv (title b)) (JS.toLowerCase caseConv q) ∨
   contains (JS.toLowerCase caseConv (author b)) (JS.toLowerCase caseConv q)) ∧
  (g = "all" ∨ genre b = g) ∧
  (l = "all" ∨ language b = l).
Proof.
  unfold filteredBooks. rewrite list_elem_of_filter.
  rewrite !andb_True, !Is_true_true.
  rewrite matchesSearch_spec, matchesGenre_spec, matchesLanguage_spec.
  tauto.
Qed.

(** C6.  Filtering only narrows: for every query and filters the filtered
    result is a subsequence of the catalog (its elements are catalog
    elements, in catalog order, each catalog position used at most once, so
    a catalog without repeated books gives a result without repeated books),
    and it is never longer than the catalog. *)
Theorem filteredBooks_sublist (q : jsstring) (g l : string) :
  filteredBooks caseConv booksData q g l `sublist_of` booksData ∧
  (∀ b, b ∈ filteredBooks caseConv booksData q g l → b ∈ booksData) ∧
  (NoDup booksData → NoDup (filteredBooks caseConv booksData q g l)) ∧
  length (filteredBooks caseConv booksData q g l) ≤ length booksData.
Proof.
  assert (filteredBooks caseConv booksData q g l `sublist_of` booksData) as Hsub
    by apply sublist_filter.
  split_and!; [done | | | by apply sublist_length].
  - intros b Hb. by eapply elem_of_sublist.
  - intros Hnd. by eapply sublist_NoDup.
Qed.

(** C8.  With the empty search query and both filters at ["all"], the
    filtered result is the whole catalog. *)
Theorem filteredBooks_initial :
  filteredBooks caseConv booksData [] "all" "all" = booksData.
Proof.
  unfold filteredBooks. apply filter_all. intros b _.
  unfold matchesSearch, matchesGenre, matchesLanguage.
  rewrite JS.toLowerCase_empty.
  by rewrite includes_empty.
Qed.

End DashboardFacts.

Lemma filteredBooks_sublist_witness :
  NoDup sampleCatalog ∧
  NoDup (filteredBooks asciiCase sampleCatalog (lit "he") "all" "English").
Proof.
  assert (NoDup sampleCatalog) as Hnd
    by (apply (bool_decide_unpack (NoDup sampleCatalog)); by vm_compute).
  split; [exact Hnd|].
  destruct (filteredBooks_sublist asciiCase sampleCatalog (lit "he") "all" "English")
    as (_ & _ & Hkeep & _).
  exact (Hkeep Hnd).
Defined.

(** ** The bookmark context *)

Lemma elem_of_addBookmark (b x : string) (bm : list string) :
  x ∈ addBookmark b bm ↔ x ∈ bm ∨ x = b.
Proof. unfold addBookmark. by rewrite elem_of_app, list_elem_of_singleton. Qed.

Lemma elem_of_removeBookmark (b x : string) (bm : list string) :
  x ∈ removeBookmark b bm ↔ x ∈ bm ∧ x ≠ b.
Proof. unfold removeBookmark. rewrite list_elem_of_filter. tauto. Qed.

Lemma removeBookmark_absent (b : string) (bm : list string) :
  b ∉ bm → removeBookmark b bm = bm.
Proof.
  intros Hb. apply filter_all. intros x Hx ->. by apply Hb.
Qed.

Lemma NoDup_addBookmark (b : string) (bm : list string) :
  b ∉ bm → NoDup bm → NoDup (addBookmark b bm).
Proof.
  intros Hb Hbm. apply NoDup_app. split_and!; [done | | apply NoDup_singleton].
  intros x Hx ->%list_elem_of_singleton. by apply Hb.
Qed.

Lemma NoDup_removeBookmark (b : string) (bm : list string) :
  NoDup bm → NoDup (removeBookmark b bm).
Proof. apply NoDup_filter. Qed.

Lemma NoDup_toggleBookmark (b : string) (bm : list string) :
  NoDup bm → NoDup (toggleBookmark b bm).
Proof.
  intros Hbm. unfold toggleBookmark.
  destruct (isBookmarked bm b) eqn:Hb.
  - by apply NoDup_removeBookmark.
  - apply NoDup_addBookmark; [by apply isBookmarked_false | done].
Qed.

Lemma isBookmarked_ext (bm1 bm2 : list string) (x : string) :
  (x ∈ bm1 ↔ x ∈ bm2) → isBookmarked bm1 x = isBookmarked bm2 x.
Proof.
  intros H. unfold isBookmarked, JS.arr_includes. by apply bool_decide_ext.
Qed.

Lemma guardedCalls_NoDup (cs : list LibraryCall) (bm : list string) :
  NoDup bm → guardedCalls cs bm = true → NoDup (runCalls cs bm).
Proof.
  revert bm. induction cs as [|c cs IH]; intros bm Hbm; simpl; [done|].
  rewrite andb_true_iff. intros [Hc Hcs]. apply IH; [|done].
  destruct c as [b|b]; simpl.
  - apply NoDup_addBookmark; [|done].
    apply isBookmarked_false. by destruct (isBookmarked bm b).
  - by apply NoDup_removeBookmark.
Qed.

Lemma toggleCall_apply (b : string) (bm : list string) :
  applyCall (toggleCall b bm) bm = toggleBookmark b bm.
Proof. unfold toggleCall, toggleBookmark. by destruct (isBookmarked bm b). Qed.

Lemma toggleCall_guarded (b : string) (bm : list string) :
  guardedCalls [toggleCall b bm] bm = true.
Proof. unfold toggleCall. simpl. by destruct (isBookmarked bm b) eqn:Hb; simpl; rewrite ?Hb. Qed.

(** C2, as the claim states it, fails: two [addBookmark] calls with the same
    identifier leave two entries, and the Profile count (2) differs from the
    number of distinct bookmarked identifiers (1). *)
Lemma addBookmark_twice_duplicates :
  runCalls [AddBookmark "1"; AddBookmark "1"] initialBookmarks = ["1"; "1"] ∧
  ¬ NoDup (runCalls [AddBookmark "1"; AddBookmark "1"] initialBookmarks) ∧
  profileBookmarkCount (runCalls [AddBookmark "1"; AddBookmark "1"] initialBookmarks) = 2 ∧
  size (list_to_set (C := gset string)
          (runCalls [AddBookmark "1"; AddBookmark "1"] initialBookmarks)) = 1.
Proof.
  split_and!; [reflexivity | | reflexivity | by vm_compute].
  change (runCalls [AddBookmark "1"; AddBookmark "1"] initialBookmarks)
    with ["1"; "1"].
  rewrite NoDup_cons. intros [Hnotin _]. apply Hnotin. left.
Qed.

(** C2, amended.  For every sequence of [addBookmark] and [removeBookmark]
    calls from the empty initial state in which each [addBookmark(b)] is
    issued only while [b] is not bookmarked (the guard of the click handlers
    of [BookCard] and [BookDetails]), the bookmarks list has no duplicate
    identifier, and the count shown on the Profile page equals the number of
    distinct bookmarked identifiers. *)
Theorem guarded_bookmarks_are_a_set (cs : list LibraryCall) :
  guardedCalls cs initialBookmarks = true →
  NoDup (runCalls cs initialBookmarks) ∧
  profileBookmarkCount (runCalls cs initialBookmarks) =
    size (list_to_set (C := gset string) (runCalls cs initialBookmarks)).
Proof.
  intros Hg.
  assert (NoDup (runCalls cs initialBookmarks)) as Hnd.
  { apply guardedCalls_NoDup; [apply NoDup_nil_2 | done]. }
  split; [done|]. unfold profileBookmarkCount.
  symmetry. by apply size_list_to_set.
Qed.

Lemma guarded_bookmarks_are_a_set_witness :
  guardedCalls [AddBookmark "1"; AddBookmark "2"; RemoveBookmark "1"; AddBookmark "1"]
    initialBookmarks = true ∧
  NoDup (runCalls [AddBookmark "1"; AddBookmark "2"; RemoveBookmark "1"; AddBookmark "1"]
           initialBookmarks).
Proof.
  split; [reflexivity|].
  apply (guarded_bookmarks_are_a_set
           [AddBookmark "1"; AddBookmark "2"; RemoveBookmark "1"; AddBookmark "1"]).
  reflexivity.
Defined.

(** C3.  After [addBookmark(b)] the identifier [b] is bookmarked, after
    [removeBookmark(b)] it is not, and from a state where [b] is not
    bookmarked [addBookmark(b)] followed by [removeBookmark(b)] gives the
    original state back. *)
Theorem bookmark_toggles_membership (b : string) (bm : list string) :
  isBookmarked (addBookmark b bm) b = true ∧
  isBookmarked (removeBookmark b bm) b = false ∧
  (isBookmarked bm b = false → removeBookmark b (addBookmark b bm) = bm).
Proof.
  split_and!.
  - apply isBookmarked_spec, elem_of_addBookmark. by right.
  - apply isBookmarked_false. rewrite elem_of_removeBookmark. tauto.
  - intros Hb%isBookmarked_false. unfold addBookmark, removeBookmark.
    rewrite filter_app, filter_cons_False, filter_nil by (intros H; by apply H).
    rewrite app_nil_r. by apply removeBookmark_absent.
Qed.

Lemma bookmark_toggles_membership_witness :
  isBookmarked ["2"; "3"] "1" = false ∧
  removeBookmark "1" (addBookmark "1" ["2"; "3"]) = ["2"; "3"].
Proof.
  split; [reflexivity|].
  apply (bookmark_toggles_membership "1" ["2"; "3"]). reflexivity.
Defined.

(** C7.  [removeBookmark(b)] and [addBookmark(b)] leave the membership of
    every other identifier [x] unchanged, and [removeBookmark(b)] keeps the
    remaining identifiers in their original relative order. *)
Theorem bookmark_ops_frame (b x : string) (bm : list string) :
  x ≠ b →
  isBookmarked (removeBookmark b bm) x = isBookmarked bm x ∧
  removeBookmark b bm `sublist_of` bm ∧
  isBookmarked (addBookmark b bm) x = isBookmarked bm x.
Proof.
  intros Hx. split_and!.
  - apply isBookmarked_ext. rewrite elem_of_removeBookmark. tauto.
  - apply sublist_filter.
  - apply isBookmarked_ext. rewrite elem_of_addBookmark. tauto.
Qed.

Lemma bookmark_ops_frame_witness :
  "2" ≠ "1" ∧
  isBookmarked (removeBookmark "1" ["2"; "1"; "3"]) "2" = isBookmarked ["2"; "1"; "3"] "2".
Proof.
  assert ("2" ≠ "1") as Hne by (intros [=]).
  split; [exact Hne|].
  apply (bookmark_ops_frame "1" "2" ["2"; "1"; "3"] Hne).
Defined.

(** ** BookDetails: drawing the reviews *)

Lemma reviewRow_Some (spreadLimit : Z) (r : Review) (row : ReviewRow) :
  reviewRow spreadLimit r = Some row ↔
  ∃ z, rating r = Integral z ∧ (0 ≤ z < 2 ^ 32)%Z ∧ (z ≤ spreadLimit)%Z ∧
       row = {| rowUser := user r; rowStars := Z.to_nat z;
                rowComment := comment r |}.
Proof.
  unfold reviewRow, spreadArray. destruct (rating r) as [z|]; simpl.
  - destruct (Z.leb_spec 0 z), (Z.ltb_spec z (2 ^ 32)), (Z.leb_spec z spreadLimit);
      simpl; split; try done;
      try (intros (z' & [= <-] & ? & ? & _); lia).
    + intros [= <-]. exists z. split_and!; done || lia.
    + by intros (z' & [= <-] & _ & _ & ->).
  - split; [done | by intros (z & ? & _)].
Qed.

Lemma reviewRow_is_Some (spreadLimit : Z) (r : Review) :
  is_Some (reviewRow spreadLimit r) ↔ validRating spreadLimit r.
Proof.
  unfold validRating. split.
  - intros [row (z & Hz & Hrange & Hlim & _)%reviewRow_Some]. by exists z.
  - intros (z & Hz & Hrange & Hlim). eexists. apply reviewRow_Some.
    exists z. split_and!; try done; lia.
Qed.

Lemma reviewRow_None (spreadLimit : Z) (r : Review) :
  reviewRow spreadLimit r = None ↔ ¬ validRating spreadLimit r.
Proof. by rewrite eq_None_not_Some, reviewRow_is_Some. Qed.

Lemma reviewRows_shows (spreadLimit : Z) (rs : list Review) (rows : list ReviewRow) :
  reviewRows spreadLimit rs = Some rows → showsReviews rs rows.
Proof.
  unfold reviewRows, showsReviews. intros Hrows%mapM_Some.
  eapply Forall2_impl; [exact Hrows|]. simpl.
  intros r row (z & Hz & Hrange & _ & ->)%reviewRow_Some. simpl.
  split_and!; [done | | done]. rewrite Hz. f_equal. lia.
Qed.

Lemma reviewRows_valid (spreadLimit : Z) (rs : list Review) :
  (∀ r, r ∈ rs → validRating spreadLimit r) →
  ∃ rows, reviewRows spreadLimit rs = Some rows ∧ showsReviews rs rows.
Proof.
  intros Hall.
  assert (is_Some (reviewRows spreadLimit rs)) as [rows Hrows].
  { apply mapM_is_Some, Forall_forall. intros r Hr.
    by apply reviewRow_is_Some, Hall. }
  exists rows. split; [done|]. by eapply reviewRows_shows.
Qed.

Lemma reviewRows_invalid (spreadLimit : Z) (rs : list Review) :
  (∃ r, r ∈ rs ∧ ¬ validRating spreadLimit r) →
  reviewRows spreadLimit rs = None.
Proof.
  intros (r & Hr & Hbad). apply mapM_None, Exists_exists.
  exists r. split; [done|]. by apply reviewRow_None.
Qed.

(** ** BookDetails: looking the book up *)

Lemma strict_eq_spec (s : string) (p : option string) :
  JS.strict_eq s p = true ↔ Some s = p.
Proof.
  destruct p as [t|]; simpl; [|done].
  rewrite String.eqb_eq. split; congruence.
Qed.

Lemma strict_eq_false (s : string) (p : option string) :
  JS.strict_eq s p = false ↔ Some s ≠ p.
Proof.
  rewrite <-strict_eq_spec. destruct (JS.strict_eq s p); naive_solver.
Qed.

Lemma bookPage_showsDetails (book : Book) (bm : list string)
    (rows : list ReviewRow) (review : string) (ratingSel : Z) :
  showsReviews (reviews book) rows →
  showsDetails book bm review ratingSel (bookPage book bm rows review ratingSel).
Proof.
  intros Hrows. unfold showsDetails, bookPage. simpl.
  split_and!; try done. apply isBookmarked_spec.
Qed.

Lemma BookDetails_absent (spreadLimit : Z) (booksData : list Book)
    (idParam : option string) (bm : list string) (review : string) (ratingSel : Z) :
  (∀ b, b ∈ booksData → Some (id b) ≠ idParam) →
  BookDetails spreadLimit booksData idParam bm review ratingSel = BookNotFound.
Proof.
  intros Hnone. unfold BookDetails.
  assert (JS.find (λ b, JS.strict_eq (id b) idParam) booksData = None) as ->; [|done].
  apply find_None. intros b Hb. by apply strict_eq_false, Hnone.
Qed.

(** The page is decided by the first catalog book with the id. *)
Lemma BookDetails_present (spreadLimit : Z) (booksData : list Book)
    (idParam : option string) (bm : list string) (review : string) (ratingSel : Z) :
  (∃ b, b ∈ booksData ∧ Some (id b) = idParam) →
  ∃ book before after,
    booksData = before ++ book :: after ∧
    Some (id book) = idParam ∧
    (∀ y, y ∈ before → Some (id y) ≠ idParam) ∧
    BookDetails spreadLimit booksData idParam bm review ratingSel
      = match reviewRows spreadLimit (reviews book) with
        | Some rows => BookFound (bookPage book bm rows review ratingSel)
        | None => RenderThrows
        end.
Proof.
  intros (b & Hb & Hid). unfold BookDetails.
  destruct (JS.find (λ b, JS.strict_eq (id b) idParam) booksData) as [book|] eqn:Hfind.
  - apply find_Some in Hfind as (before & after & Hsplit & Hbook & Hbefore).
    exists book, before, after. split_and!; [done | by apply strict_eq_spec | | done].
    intros y Hy. by apply strict_eq_false, Hbefore.
  - exfalso. eapply find_None in Hfind; [|exact Hb].
    simpl in Hfind. by apply strict_eq_false in Hfind.
Qed.

(** Once the book is looked up, its page is drawn when every rating can be
    drawn, and the render throws otherwise. *)
Lemma drawn_or_thrown (spreadLimit : Z) (book : Book) (bm : list string)
    (review : string) (ratingSel : Z) (view : BookDetailsView) :
  view = match reviewRows spreadLimit (reviews book) with
         | Some rows => BookFound (bookPage book bm rows review ratingSel)
         | None => RenderThrows
         end →
  ((∀ r, r ∈ reviews book → validRating spreadLimit r) →
   ∃ page, view = BookFound page ∧ showsDetails book bm review ratingSel page) ∧
  ((∃ r, r ∈ reviews book ∧ ¬ validRating spreadLimit r) → view = RenderThrows).
Proof.
  intros ->. split.
  - intros (rows & -> & Hrows)%reviewRows_valid.
    eexists. split; [done|]. by apply bookPage_showsDetails.
  - intros Hbad%reviewRows_invalid. by rewrite Hbad.
Qed.

(** C4, as the claim states it, fails for a matching id: the page of a book
    that has a review with rating -1 is not rendered, [Array(-1)] throws,
    whatever the engine's limit is. *)
Lemma BookDetails_negative_rating_throws :
  bookBad ∈ badCatalog ∧ id bookBad = "1" ∧
  ∀ limit, BookDetails limit badCatalog (Some "1") [] "" 5 = RenderThrows.
Proof. split_and!; [left | done | done]. Qed.

Section BookDetailsFacts.

Variable spreadLimit : Z.
Variable booksData : list Book.

(** C4, amended.  When the route parameter equals the id of no catalog book
    the page is the "Book not found" fallback, and the render does not
    throw.  When it equals the id of some catalog book, the first such book
    in catalog order decides: if each of its reviews has a rating that is an
    integer from 0 up to the engine's limit for spread arrays (and below
    2^32), the page shows that book's cover, title, author, genre, year and
    description, its bookmark state, and one row per review, in order, with
    the review's user, comment and as many stars as its rating; if one of
    its reviews has another rating, the render throws and no page is
    shown. *)
Theorem BookDetails_lookup (idParam : option string) (bm : list string)
    (review : string) (ratingSel : Z) :
  ((∀ b, b ∈ booksData → Some (id b) ≠ idParam) →
   BookDetails spreadLimit booksData idParam bm review ratingSel = BookNotFound) ∧
  ((∃ b, b ∈ booksData ∧ Some (id b) = idParam) →
   ∃ book before after,
     booksData = before ++ book :: after ∧
     Some (id book) = idParam ∧
     (∀ y, y ∈ before → Some (id y) ≠ idParam) ∧
     ((∀ r, r ∈ reviews book →
            ∃ z, rating r = Integral z ∧ (0 ≤ z < 2 ^ 32)%Z ∧ (z ≤ spreadLimit)%Z) →
      ∃ page,
        BookDetails spreadLimit booksData idParam bm review ratingSel
          = BookFound page ∧
        shownCover page = cover book ∧
        shownTitle page = title book ∧
        shownAuthor page = author book ∧
        shownGenre page = genre book ∧
        shownYear page = year book ∧
        shownDescription page = description book ∧
        (shownBookmarked page = true ↔ id book ∈ bm) ∧
        Forall2 (λ r row, rowUser row = user r ∧
                          rating r = Integral (Z.of_nat (rowStars row)) ∧
                          rowComment row = comment r)
                (reviews book) (shownReviews page) ∧
        reviewBox page = review ∧
        ratingStars page = ratingSel) ∧
     ((∃ r, r ∈ reviews book ∧
            ¬ ∃ z, rating r = Integral z ∧ (0 ≤ z < 2 ^ 32)%Z ∧ (z ≤ spreadLimit)%Z) →
      BookDetails spreadLimit booksData idParam bm review ratingSel = RenderThrows)).
Proof.
  split; [apply BookDetails_absent|].
  intros Hsome.
  destruct (BookDetails_present spreadLimit booksData idParam bm review ratingSel Hsome)
    as (book & before & after & Hsplit & Hid & Hbefore & Hview).
  exists book, before, after. split_and!; [done..| |].
  - intros Hvalid.
    destruct (drawn_or_thrown _ _ _ _ _ _ Hview) as [Hdrawn _].
    destruct (Hdrawn Hvalid) as (page & Hpage & Hshows).
    exists page. split; [done|]. exact Hshows.
  - intros Hbad.
    destruct (drawn_or_thrown _ _ _ _ _ _ Hview) as [_ Hthrown].
    by apply Hthrown.
Qed.

End BookDetailsFacts.

Lemma BookDetails_lookup_witness :
  BookDetails 1000 sampleCatalog (Some "7") ["2"] "" 5 = BookNotFound ∧
  (∃ book before after,
    sampleCatalog = before ++ book :: after ∧
    Some (id book) = Some "1" ∧
    (∀ y, y ∈ before → Some (id y) ≠ Some "1") ∧
    ∃ page,
      BookDetails 1000 sampleCatalog (Some "1") ["2"] "" 5 = BookFound page ∧
      shownTitle page = title book) ∧
  BookDetails 1000 badCatalog (Some "1") ["2"] "" 5 = RenderThrows.
Proof.
  split_and!.
  - apply (BookDetails_lookup 1000 sampleCatalog (Some "7") ["2"] "" 5).
    intros b Hb. unfold sampleCatalog in Hb.
    repeat (apply elem_of_cons in Hb as [->|Hb]); [done..|inversion Hb].
  - destruct (proj2 (BookDetails_lookup 1000 sampleCatalog (Some "1") ["2"] "" 5))
      as (book & before & after & Hsplit & Hid & Hbefore & Hdrawn & _).
    { exists bookA. split; [left | done]. }
    exists book, before, after. split_and!; [done..|].
    destruct Hdrawn as (page & Hpage & _ & Htitle & _).
    + intros r Hr.
      assert (book = bookA) as ->.
      { destruct before as [|y before].
        - by injection Hsplit as <- _.
        - injection Hsplit as <- _. destruct (Hbefore bookA); [left | done]. }
      apply list_elem_of_singleton in Hr as ->. exists 5%Z. simpl. split_and!; done || lia.
    + by exists page.
  - destruct (proj2 (BookDetails_lookup 1000 badCatalog (Some "1") ["2"] "" 5))
      as (book & before & after & Hsplit & Hid & Hbefore & _ & Hthrown).
    { exists bookBad. split; [left | done]. }
    apply Hthrown.
    assert (book = bookBad) as ->.
    { destruct before as [|y before].
      - by injection Hsplit as <- _.
      - injection Hsplit as _ Hnil. by destruct before. }
    exists badReview. split; [left|].
    intros (z & [= <-] & Hrange & _). lia.
Defined.

(** X7.  With unique ids in the catalog, the page for a catalog book's own
    id is decided by that very book: it shows the book's details when each
    of its reviews has a rating that can be drawn, and the render throws
    when one has not. *)
Lemma unique_id_BookDetails (spreadLimit : Z) (booksData : list Book) (b : Book)
    (bm : list string) (review : string) (ratingSel : Z) :
  NoDup (id <$> booksData) → b ∈ booksData →
  ((∀ r, r ∈ reviews b → validRating spreadLimit r) →
   ∃ page,
     BookDetails spreadLimit booksData (Some (id b)) bm review ratingSel
       = BookFound page ∧
     showsDetails b bm review ratingSel page) ∧
  ((∃ r, r ∈ reviews b ∧ ¬ validRating spreadLimit r) →
   BookDetails spreadLimit booksData (Some (id b)) bm review ratingSel = RenderThrows).
Proof.
  intros Hnd Hb.
  destruct (BookDetails_present spreadLimit booksData (Some (id b)) bm review ratingSel)
    as (book & before & after & Hsplit & Hid & Hbefore & Hview); [by exists b|].
  assert (book = b) as ->; [|by eapply drawn_or_thrown].
  subst booksData.
  apply elem_of_app in Hb as [Hb|Hb]; [by destruct (Hbefore b Hb)|].
  apply elem_of_cons in Hb as [->|Hb]; [done|].
  rewrite fmap_app, fmap_cons in Hnd.
  apply NoDup_app in Hnd as (_ & _ & Hnd). apply NoDup_cons in Hnd as [Hnotin _].
  destruct Hnotin. injection Hid as ->. by apply list_elem_of_fmap_2.
Qed.

(** ** Bookmarks page *)

Lemma filter_ext_elem {A} (P Q : A → Prop)
    `{!∀ x, Decision (P x)} `{!∀ x, Decision (Q x)} (l : list A) :
  (∀ x, x ∈ l → (P x ↔ Q x)) → filter P l = filter Q l.
Proof.
  induction l as [|x l IH]; intros Hext; [done|].
  assert (filter P l = filter Q l) as Htl.
  { apply IH. intros y Hy. apply Hext. by right. }
  assert (P x ↔ Q x) as Hx by (apply Hext; left).
  rewrite !filter_cons, Htl.
  destruct (decide (P x)), (decide (Q x)); tauto.
Qed.

Lemma bookmarkedBooks_elem (booksData : list Book) (bm : list string) (b : Book) :
  b ∈ bookmarkedBooks booksData bm ↔ b ∈ booksData ∧ id b ∈ bm.
Proof.
  unfold bookmarkedBooks. rewrite list_elem_of_filter, Is_true_true.
  rewrite arr_includes_spec. tauto.
Qed.

Lemma bookmarkedBooks_nil (booksData : list Book) (bm : list string) :
  bookmarkedBooks booksData bm = [] ↔ ∀ b, b ∈ booksData → id b ∉ bm.
Proof.
  split.
  - intros Hnil b Hb Hin.
    assert (b ∈ bookmarkedBooks booksData bm) as Hmem
      by (by apply bookmarkedBooks_elem).
    rewrite Hnil in Hmem. inversion Hmem.
  - intros Hnone. destruct (bookmarkedBooks booksData bm) as [|b bb] eqn:Hbb; [done|].
    assert (b ∈ bookmarkedBooks booksData bm) as Hmem by (rewrite Hbb; left).
    apply bookmarkedBooks_elem in Hmem as [Hb Hin]. by destruct (Hnone b Hb).
Qed.

Section BookmarksFacts.

Variable booksData : list Book.

(** C9.  The Bookmarks page lists exactly the catalog books whose id is in
    the bookmarks state, in catalog order; an identifier that matches no
    catalog book contributes nothing to the list (bookmarking it leaves the
    list as it was); and the "No bookmarks yet" state is shown exactly when
    no catalog book is bookmarked, the grid of those books otherwise. *)
Theorem Bookmarks_page (bm : list string) :
  (∀ b, b ∈ bookmarkedBooks booksData bm ↔ b ∈ booksData ∧ id b ∈ bm) ∧
  bookmarkedBooks booksData bm `sublist_of` booksData ∧
  (∀ i, (∀ b, b ∈ booksData → id b ≠ i) →
        (∀ b, b ∈ bookmarkedBooks booksData (addBookmark i bm) → id b ≠ i) ∧
        bookmarkedBooks booksData (addBookmark i bm) = bookmarkedBooks booksData bm) ∧
  (Bookmarks booksData bm = NoBookmarksYet ↔ ∀ b, b ∈ booksData → id b ∉ bm) ∧
  ((∃ b, b ∈ booksData ∧ id b ∈ bm) →
   Bookmarks booksData bm = BookmarksGrid (bookmarkedBooks booksData bm)).
Proof.
  split_and!.
  - intros b. apply bookmarkedBooks_elem.
  - apply sublist_filter.
  - intros i Hi. split.
    + intros b [Hb _]%bookmarkedBooks_elem. by apply Hi.
    + apply filter_ext_elem. intros b Hb.
      rewrite !Is_true_true, !arr_includes_spec, elem_of_addBookmark.
      specialize (Hi b Hb). tauto.
  - rewrite <-bookmarkedBooks_nil. unfold Bookmarks.
    destruct (bookmarkedBooks booksData bm); simpl; split; done.
  - intros (b & Hb & Hin). unfold Bookmarks.
    destruct (bookmarkedBooks booksData bm) as [|b' bb] eqn:Hbb; [|done].
    exfalso. eapply bookmarkedBooks_nil in Hbb; [|exact Hb]. by apply Hbb.
Qed.

End BookmarksFacts.

Lemma Bookmarks_page_witness :
  (∀ b, b ∈ sampleCatalog → id b ≠ "9") ∧
  (∃ b, b ∈ sampleCatalog ∧ id b ∈ ["3"; "1"]) ∧
  bookmarkedBooks sampleCatalog (addBookmark "9" ["3"; "1"])
    = bookmarkedBooks sampleCatalog ["3"; "1"] ∧
  Bookmarks sampleCatalog ["3"; "1"]
    = BookmarksGrid (bookmarkedBooks sampleCatalog ["3"; "1"]).
Proof.
  assert (∀ b, b ∈ sampleCatalog → id b ≠ "9") as Hnone.
  { intros b Hb. unfold sampleCatalog in Hb.
    repeat (apply elem_of_cons in Hb as [->|Hb]); [done..|inversion Hb]. }
  assert (∃ b, b ∈ sampleCatalog ∧ id b ∈ ["3"; "1"]) as Hsome.
  { exists bookA. split; [left | right; left]. }
  destruct (Bookmarks_page sampleCatalog ["3"; "1"])
    as (_ & _ & Homit & _ & Hgrid).
  split_and!; [exact Hnone | exact Hsome | exact (proj2 (Homit "9" Hnone)) | exact (Hgrid Hsome)].
Defined.

(** ** Home page *)

Section HomeFacts.

Variable booksData : list Book.

(** C10.  The featured section shows the first [min 6 (length catalog)]
    books of the catalog in catalog order, never more than 6, and the same
    books whatever the page's search input holds. *)
Theorem featuredBooks_first_six :
  featuredBooks booksData = take (Nat.min 6 (length booksData)) booksData ∧
  featuredBooks booksData `prefix_of` booksData ∧
  length (featuredBooks booksData) = Nat.min 6 (length booksData) ∧
  length (featuredBooks booksData) ≤ 6 ∧
  (∀ q1 q2, homeFeatured (Home booksData q1) = homeFeatured (Home booksData q2)) ∧
  (∀ q, homeFeatured (Home booksData q) = featuredBooks booksData).
Proof.
  assert (featuredBooks booksData = take 6 booksData) as Hsix
    by apply (slice_0 6).
  split_and!.
  - rewrite Hsix. destruct (Nat.min_spec 6 (length booksData)) as [[_ ->]|[Hle ->]]; [done|].
    by rewrite !take_ge by lia.
  - rewrite Hsix. apply prefix_take.
  - rewrite Hsix. apply length_take.
  - rewrite Hsix, length_take. lia.
  - done.
  - done.
Qed.

End HomeFacts.

(** ** Client operations never touch the catalog *)

Lemma step_catalog (op : ClientOp) (s : ClientState) :
  stBooksData (step op s) = stBooksData s.
Proof. by destruct op. Qed.

Lemma run_catalog (ops : list ClientOp) (s : ClientState) :
  stBooksData (run ops s) = stBooksData s.
Proof.
  revert s. induction ops as [|op ops IH]; intros s; simpl; [done|].
  by rewrite IH, step_catalog.
Qed.

Lemma viewReviews_BookDetails (spreadLimit : Z) (booksData : list Book)
    (idParam : option string)
    (bm1 bm2 : list string) (r1 r2 : string) (n1 n2 : Z) :
  viewReviews (BookDetails spreadLimit booksData idParam bm1 r1 n1)
  = viewReviews (BookDetails spreadLimit booksData idParam bm2 r2 n2).
Proof.
  unfold BookDetails.
  destruct (JS.find (λ b, JS.strict_eq (id b) idParam) booksData) as [book|];
    [|done].
  by destruct (reviewRows spreadLimit (reviews book)).
Qed.

(** C5.  Submitting a review leaves the catalog as it was: every book keeps
    its ordered list of reviews and all its other fields, so the reviews
    listed on any BookDetails page are the same before and after; and no
    sequence of client operations changes the catalog. *)
Theorem handleAddReview_keeps_catalog (s : ClientState) :
  stBooksData (handleAddReview s) = stBooksData s ∧
  (∀ spreadLimit idParam,
     viewReviews (renderBookDetails spreadLimit idParam (handleAddReview s))
     = viewReviews (renderBookDetails spreadLimit idParam s)) ∧
  (∀ ops, stBooksData (run ops s) = stBooksData s).
Proof.
  split_and!.
  - done.
  - intros spreadLimit idParam. unfold renderBookDetails.
    apply viewReviews_BookDetails.
  - intros ops. apply run_catalog.
Qed.

Lemma handleAddReview_effect (s : ClientState) :
  stReview (handleAddReview s) = "" ∧
  stRating (handleAddReview s) = stRating s ∧
  stBookmarks (handleAddReview s) = stBookmarks s ∧
  length (stToasts (handleAddReview s)) = S (length (stToasts s)).
Proof.
  split_and!; try done. simpl. rewrite length_app. simpl. lia.
Qed.

Lemma clickHandler_fresh (b : string) (bm : list string) :
  clickHandler (isBookmarked bm b) b bm = toggleBookmark b bm.
Proof. reflexivity. Qed.

(** X6.  When every click on a bookmark button comes after a render that has
    seen the current bookmarks, the operations the pages offer (clicks,
    removals, typing, rating, submitting a review, filters, regenerate, but
    no bare [addBookmark]) keep a duplicate-free bookmarks list
    duplicate-free. *)
Lemma pageOps_bookmarks_NoDup (ops : list ClientOp) (s : ClientState) :
  forallb pageOp ops = true →
  clicksOnFreshRender ops s = true →
  NoDup (stBookmarks s) → NoDup (stBookmarks (run ops s)).
Proof.
  revert s. induction ops as [|op ops IH]; intros s; simpl; [done|].
  rewrite !andb_true_iff. intros [Hop Hops] [Hfresh Hrest] Hnd.
  apply IH; [done..|].
  destruct op; simpl in *; try done.
  - by apply NoDup_removeBookmark.
  - apply bool_decide_eq_true in Hfresh. rewrite Hfresh, clickHandler_fresh.
    by apply NoDup_toggleBookmark.
Qed.

(** ** The definitions at work on the sample catalog *)

Example lit_code_units : lit "aZ" = [97; 90]%N.
Proof. reflexivity. Qed.

Example search_by_author :
  id <$> filteredBooks asciiCase sampleCatalog (lit "HAIG") "all" "English" = ["1"].
Proof. reflexivity. Qed.

Example filter_by_language :
  id <$> filteredBooks asciiCase sampleCatalog [] "all" "English" = ["1"; "3"].
Proof. reflexivity. Qed.

Example filter_by_genre :
  id <$> filteredBooks asciiCase sampleCatalog (lit "u") "Classic" "all" = ["2"].
Proof. reflexivity. Qed.

Example bookmarks_in_catalog_order :
  id <$> bookmarkedBooks sampleCatalog ["3"; "9"; "1"] = ["1"; "3"].
Proof. reflexivity. Qed.

Example unknown_bookmark_only :
  Bookmarks sampleCatalog ["9"] = NoBookmarksYet.
Proof. reflexivity. Qed.

Example remove_drops_every_copy :
  runCalls [AddBookmark "1"; AddBookmark "2"; AddBookmark "1"; RemoveBookmark "1"]
    initialBookmarks = ["2"].
Proof. reflexivity. Qed.

Example absent_route_parameter :
  BookDetails 1000 sampleCatalog None [] "" 5 = BookNotFound.
Proof. reflexivity. Qed.

Example five_stars_drawn :
  viewReviews (BookDetails 1000 sampleCatalog (Some "1") [] "" 5)
  = Some [ {| rowUser := "Asha"; rowStars := 5; rowComment := "Loved it" |} ].
Proof. reflexivity. Qed.

Example rating_above_the_limit :
  BookDetails 4 sampleCatalog (Some "1") [] "" 5 = RenderThrows.
Proof. reflexivity. Qed.

Example featured_of_nine :
  id <$> featuredBooks (sampleCatalog ++ sampleCatalog ++ sampleCatalog)
  = ["1"; "2"; "3"; "1"; "2"; "3"].
Proof. reflexivity. Qed.

Example submit_review_on_sample :
  stReview (handleAddReview (setReview "great" (initialState sampleCatalog))) = "" ∧
  stBooksData (handleAddReview (setReview "great" (initialState sampleCatalog)))
  = sampleCatalog.
Proof. split; reflexivity. Qed.

Example two_clicks_on_one_render :
  stBookmarks (run [OpClickBookmark "1"; OpClickBookmark "1"]
                   (initialState sampleCatalog)) = ["1"; "1"] ∧
  stBookmarks (run [OpClickBookmark "1"; OpRender; OpClickBookmark "1"]
                   (initialState sampleCatalog)) = [].
Proof. split; reflexivity. Qed.

(** ** More on the bookmark context *)

Lemma removeBookmark_addBookmark (b : string) (bm : list string) :
  removeBookmark b (addBookmark b bm) = removeBookmark b bm.
Proof.
  unfold addBookmark, removeBookmark.
  rewrite filter_app, filter_cons_False, filter_nil by (intros H; by apply H).
  apply app_nil_r.
Qed.

Lemma removeBookmark_copies (b : string) (bm : list string) :
  length (removeBookmark b bm) + length (filter (λ i, i = b) bm) = length bm.
Proof.
  unfold removeBookmark. induction bm as [|x bm IH]; [done|].
  rewrite !filter_cons. destruct (decide (x = b)) as [->|Hx].
  - rewrite decide_False by (intros H; by apply H). simpl. lia.
  - rewrite decide_True by done. simpl. lia.
Qed.

Lemma NoDup_one_copy (b : string) (bm : list string) :
  NoDup bm → b ∈ bm → length (filter (λ i, i = b) bm) = 1.
Proof.
  induction 1 as [|x bm Hx Hnd IH]; intros Hb; [inversion Hb|].
  rewrite filter_cons. destruct (decide (x = b)) as [->|Hxb].
  - simpl. f_equal.
    assert (filter (λ i, i = b) bm = []) as ->; [|done].
    destruct (filter (λ i, i = b) bm) as [|y ys] eqn:Hf; [done|].
    assert (y ∈ filter (λ i, i = b) bm) as Hy by (rewrite Hf; left).
    apply list_elem_of_filter in Hy as [-> Hy]. by destruct Hx.
  - apply IH. apply elem_of_cons in Hb as [->|Hb]; done.
Qed.

Lemma elem_of_toggleBookmark (b x : string) (bm : list string) :
  x ∈ toggleBookmark b bm ↔ (x = b ∧ b ∉ bm) ∨ (x ≠ b ∧ x ∈ bm).
Proof.
  unfold toggleBookmark. destruct (isBookmarked bm b) eqn:Hb.
  - apply isBookmarked_spec in Hb. rewrite elem_of_removeBookmark.
    destruct (decide (x = b)) as [->|]; tauto.
  - apply isBookmarked_false in Hb. rewrite elem_of_addBookmark.
    destruct (decide (x = b)) as [->|]; tauto.
Qed.

(** X1.  Removing a bookmark twice is the same as removing it once, two
    removals can be done in either order, and a removal cancels an earlier
    [addBookmark] of the same identifier whatever the state was. *)
Theorem removeBookmark_composes (a b : string) (bm : list string) :
  removeBookmark b (removeBookmark b bm) = removeBookmark b bm ∧
  removeBookmark a (removeBookmark b bm) = removeBookmark b (removeBookmark a bm) ∧
  removeBookmark b (addBookmark b bm) = removeBookmark b bm.
Proof.
  split_and!.
  - unfold removeBookmark. rewrite list_filter_filter.
    apply list_filter_iff. tauto.
  - unfold removeBookmark. rewrite !list_filter_filter.
    apply list_filter_iff. tauto.
  - apply removeBookmark_addBookmark.
Qed.

(** X2.  The Profile count after [removeBookmark(b)] drops by the number of
    copies of [b] in the list (all of them go), and [addBookmark] always
    raises it by one, also for an identifier that is already bookmarked. *)
Theorem bookmark_count_changes (b : string) (bm : list string) :
  profileBookmarkCount (removeBookmark b bm)
    = profileBookmarkCount bm - length (filter (λ i, i = b) bm) ∧
  (isBookmarked bm b = false →
   profileBookmarkCount (removeBookmark b bm) = profileBookmarkCount bm) ∧
  profileBookmarkCount (addBookmark b bm) = S (profileBookmarkCount bm).
Proof.
  unfold profileBookmarkCount. split_and!.
  - pose proof (removeBookmark_copies b bm). lia.
  - intros Hb%isBookmarked_false. by rewrite removeBookmark_absent.
  - unfold addBookmark. rewrite length_app. simpl. lia.
Qed.

Lemma bookmark_count_changes_witness :
  isBookmarked ["2"; "3"] "1" = false ∧
  profileBookmarkCount (removeBookmark "1" ["2"; "3"]) = profileBookmarkCount ["2"; "3"].
Proof.
  split; [reflexivity|].
  apply (bookmark_count_changes "1" ["2"; "3"]). reflexivity.
Defined.

(** X3.  The click handler flips the bookmarked state of the identifier it
    is given and leaves the bookmarked state of every other identifier as it
    was. *)
Theorem toggleBookmark_flips (b x : string) (bm : list string) :
  isBookmarked (toggleBookmark b bm) x
  = if decide (x = b) then negb (isBookmarked bm b) else isBookmarked bm x.
Proof.
  destruct (decide (x = b)) as [->|Hx].
  - destruct (isBookmarked bm b) eqn:Hb; simpl.
    + apply isBookmarked_false. rewrite elem_of_toggleBookmark.
      apply isBookmarked_spec in Hb. tauto.
    + apply isBookmarked_spec. rewrite elem_of_toggleBookmark.
      apply isBookmarked_false in Hb. tauto.
  - apply isBookmarked_ext. rewrite elem_of_toggleBookmark. tauto.
Qed.

(** X4.  On a list without duplicates one click changes the Profile count by
    exactly one: down when the identifier was bookmarked, up when it was
    not. *)
Theorem toggleBookmark_count (b : string) (bm : list string) :
  NoDup bm →
  profileBookmarkCount (toggleBookmark b bm)
  = if isBookmarked bm b then profileBookmarkCount bm - 1
    else profileBookmarkCount bm + 1.
Proof.
  intros Hnd. unfold profileBookmarkCount, toggleBookmark.
  destruct (isBookmarked bm b) eqn:Hb.
  - apply isBookmarked_spec in Hb.
    pose proof (removeBookmark_copies b bm).
    pose proof (NoDup_one_copy b bm Hnd Hb). lia.
  - unfold addBookmark. rewrite length_app. simpl. lia.
Qed.

Lemma toggleBookmark_count_witness :
  NoDup ["2"; "1"; "3"] ∧
  profileBookmarkCount (toggleBookmark "1" ["2"; "1"; "3"]) = 2.
Proof.
  assert (NoDup ["2"; "1"; "3"]) as Hnd
    by (apply (bool_decide_unpack (NoDup ["2"; "1"; "3"])); by vm_compute).
  split; [exact Hnd|].
  exact (toggleBookmark_count "1" ["2"; "1"; "3"] Hnd).
Defined.

Lemma removeBookmark_idemp (b : string) (bm : list string) :
  removeBookmark b (removeBookmark b bm) = removeBookmark b bm.
Proof.
  apply removeBookmark_absent. rewrite elem_of_removeBookmark. tauto.
Qed.

Lemma toggleBookmark_again (b : string) (bm : list string) :
  toggleBookmark b (toggleBookmark b bm)
  = if isBookmarked bm b then removeBookmark b bm ++ [b] else bm.
Proof.
  unfold toggleBookmark at 2. destruct (isBookmarked bm b) eqn:Hb.
  - unfold toggleBookmark.
    assert (isBookmarked (removeBookmark b bm) b = false) as ->; [|done].
    apply isBookmarked_false. rewrite elem_of_removeBookmark. tauto.
  - unfold toggleBookmark.
    assert (isBookmarked (addBookmark b bm) b = true) as ->.
    { apply isBookmarked_spec, elem_of_addBookmark. by right. }
    rewrite removeBookmark_addBookmark. apply removeBookmark_absent.
    by apply isBookmarked_false.
Qed.

(** X5.  Two clicks on the bookmark button of the same identifier, starting
    from an up-to-date render.  With a render between the clicks: an
    identifier that was not bookmarked leaves the list exactly as it was;
    one that was bookmarked loses every copy and comes back once, at the
    end, so a duplicate-free list is the same up to order.  Without a render
    between them both clicks run the handler of the first render: a
    bookmarked identifier is removed and stays removed, one that was not
    bookmarked is added twice. *)
Theorem toggleBookmark_twice (b : string) (s : ClientState) :
  stRendered s = stBookmarks s →
  stBookmarks (run [OpClickBookmark b; OpRender; OpClickBookmark b] s)
    = (if isBookmarked (stBookmarks s) b
       then removeBookmark b (stBookmarks s) ++ [b] else stBookmarks s) ∧
  (NoDup (stBookmarks s) →
   stBookmarks (run [OpClickBookmark b; OpRender; OpClickBookmark b] s)
     ≡ₚ stBookmarks s) ∧
  stBookmarks (run [OpClickBookmark b; OpClickBookmark b] s)
    = (if isBookmarked (stBookmarks s) b
       then removeBookmark b (stBookmarks s) else stBookmarks s ++ [b; b]).
Proof.
  intros Hfresh.
  assert (stBookmarks (run [OpClickBookmark b; OpRender; OpClickBookmark b] s)
          = toggleBookmark b (toggleBookmark b (stBookmarks s))) as Hrun.
  { simpl. by rewrite Hfresh. }
  split_and!.
  - rewrite Hrun. apply toggleBookmark_again.
  - intros Hnd. rewrite Hrun.
    apply NoDup_Permutation; [by do 2 apply NoDup_toggleBookmark | done |].
    intros x. rewrite !elem_of_toggleBookmark.
    destruct (decide (x = b)) as [->|]; destruct (decide (b ∈ stBookmarks s)); tauto.
  - simpl. rewrite Hfresh. unfold clickHandler.
    destruct (isBookmarked (stBookmarks s) b).
    + apply removeBookmark_idemp.
    + unfold addBookmark. by rewrite <-app_assoc.
Qed.

Lemma toggleBookmark_twice_witness :
  stRendered (rerender (setBookmarks (λ _, ["2"; "1"; "3"]) (initialState sampleCatalog)))
  = stBookmarks (rerender (setBookmarks (λ _, ["2"; "1"; "3"]) (initialState sampleCatalog))) ∧
  stBookmarks (run [OpClickBookmark "1"; OpRender; OpClickBookmark "1"]
                 (rerender (setBookmarks (λ _, ["2"; "1"; "3"])
                              (initialState sampleCatalog))))
  = ["2"; "3"; "1"].
Proof.
  split; [reflexivity|].
  apply (toggleBookmark_twice "1"
           (rerender (setBookmarks (λ _, ["2"; "1"; "3"]) (initialState sampleCatalog)))).
  reflexivity.
Defined.

Lemma pageOps_bookmarks_NoDup_witness :
  NoDup (stBookmarks
           (run [OpClickBookmark "1"; OpRender; OpTypeSearch (lit "du");
                 OpClickBookmark "2"; OpSubmitReview; OpRender;
                 OpClickBookmark "1"; OpRender; OpClickBookmark "1"]
                (initialState sampleCatalog))).
Proof.
  apply (pageOps_bookmarks_NoDup
           [OpClickBookmark "1"; OpRender; OpTypeSearch (lit "du");
            OpClickBookmark "2"; OpSubmitReview; OpRender;
            OpClickBookmark "1"; OpRender; OpClickBookmark "1"]
           (initialState sampleCatalog)).
  - reflexivity.
  - reflexivity.
  - apply NoDup_nil_2.
Defined.

(** ** More on the pages that show bookmarks *)

Lemma unique_id_BookDetails_witness :
  NoDup (id <$> sampleCatalog) ∧ bookA ∈ sampleCatalog ∧
  (∀ r, r ∈ reviews bookA → validRating 1000 r) ∧
  ∃ page,
    BookDetails 1000 sampleCatalog (Some (id bookA)) ["2"] "" 5 = BookFound page ∧
    showsDetails bookA ["2"] "" 5 page.
Proof.
  assert (NoDup (id <$> sampleCatalog)) as Hnd
    by (apply (bool_decide_unpack (NoDup (id <$> sampleCatalog))); by vm_compute).
  assert (bookA ∈ sampleCatalog) as Hb by left.
  assert (∀ r, r ∈ reviews bookA → validRating 1000 r) as Hvalid.
  { intros r ->%list_elem_of_singleton. exists 5%Z. simpl. split_and!; done || lia. }
  split_and!; [exact Hnd | exact Hb | exact Hvalid |].
  exact (proj1 (unique_id_BookDetails 1000 sampleCatalog bookA ["2"] "" 5 Hnd Hb) Hvalid).
Defined.

(** X8.  On a BookDetails page that shows a book, clicking the bookmark
    button flips the button between "Bookmark" and "Bookmarked" and changes
    nothing else on the page. *)
Theorem BookDetails_click_bookmark (spreadLimit : Z) (booksData : list Book)
    (idParam : option string) (bm : list string) (review : string)
    (ratingSel : Z) (page : BookPage) :
  BookDetails spreadLimit booksData idParam bm review ratingSel = BookFound page →
  ∃ book, book ∈ booksData ∧ Some (id book) = idParam ∧
    BookDetails spreadLimit booksData idParam (toggleBookmark (id book) bm)
      review ratingSel
      = BookFound (withBookmarked (negb (shownBookmarked page)) page).
Proof.
  unfold BookDetails.
  destruct (JS.find (λ b, JS.strict_eq (id b) idParam) booksData)
    as [book|] eqn:Hfind; [|done].
  destruct (reviewRows spreadLimit (reviews book)) as [rows|]; [|done].
  intros [= <-]. exists book.
  apply find_Some in Hfind as (before & after & -> & Hid & _).
  split_and!.
  - apply elem_of_app. right. left.
  - by apply strict_eq_spec.
  - unfold bookPage, withBookmarked. simpl. do 2 f_equal.
    destruct (isBookmarked bm (id book)) eqn:Hb; simpl.
    + apply isBookmarked_false. rewrite elem_of_toggleBookmark.
      apply isBookmarked_spec in Hb. tauto.
    + apply isBookmarked_spec. rewrite elem_of_toggleBookmark.
      apply isBookmarked_false in Hb. tauto.
Qed.

Lemma BookDetails_click_bookmark_witness :
  ∃ book, book ∈ sampleCatalog ∧ Some (id book) = Some "2" ∧
    BookDetails 1000 sampleCatalog (Some "2") (toggleBookmark (id book) ["2"]) "" 5
      = BookFound (withBookmarked (negb (shownBookmarked (bookPage bookB ["2"] [] "" 5)))
                     (bookPage bookB ["2"] [] "" 5)).
Proof.
  apply (BookDetails_click_bookmark 1000 sampleCatalog (Some "2") ["2"] "" 5
           (bookPage bookB ["2"] [] "" 5)).
  reflexivity.
Defined.

(** X9.  Removing a bookmark takes exactly the cards with that id off the
    Bookmarks page and keeps the others in place; adding one never takes a
    card off, and puts on exactly the catalog books with that id. *)
Theorem bookmarkedBooks_after_change (booksData : list Book)
    (i : string) (bm : list string) :
  bookmarkedBooks booksData (removeBookmark i bm)
    = filter (λ b, id b ≠ i) (bookmarkedBooks booksData bm) ∧
  bookmarkedBooks booksData bm `sublist_of` bookmarkedBooks booksData (addBookmark i bm) ∧
  (∀ b, b ∈ bookmarkedBooks booksData (addBookmark i bm) ↔
        b ∈ booksData ∧ (id b = i ∨ id b ∈ bm)).
Proof.
  split_and!.
  - unfold bookmarkedBooks. rewrite list_filter_filter.
    apply list_filter_iff. intros b.
    rewrite !Is_true_true, !arr_includes_spec, elem_of_removeBookmark. tauto.
  - unfold bookmarkedBooks, addBookmark.
    induction booksData as [|b bd IH]; [done|].
    rewrite !filter_cons.
    destruct (decide (JS.arr_includes bm (id b))) as [Hb|Hb].
    + rewrite decide_True.
      * by apply sublist_skip.
      * apply Is_true_true, arr_includes_spec, elem_of_app. left.
        by apply arr_includes_spec, Is_true_true.
    + destruct (decide (JS.arr_includes (bm ++ [i]) (id b)));
        [by apply sublist_cons | done].
  - intros b. rewrite bookmarkedBooks_elem, elem_of_addBookmark. tauto.
Qed.

(** X10.  With unique ids in the catalog the Bookmarks page never shows more
    cards than the Profile page counts bookmarks; the two numbers agree when
    the bookmarks list has no duplicates and every bookmarked identifier is
    the id of a catalog book. *)
Theorem bookmark_cards_vs_count (booksData : list Book) (bm : list string) :
  NoDup (id <$> booksData) →
  length (bookmarkedBooks booksData bm) ≤ profileBookmarkCount bm ∧
  (NoDup bm → (∀ i, i ∈ bm → ∃ b, b ∈ booksData ∧ id b = i) →
   length (bookmarkedBooks booksData bm) = profileBookmarkCount bm).
Proof.
  intros Hids. unfold profileBookmarkCount.
  assert (NoDup (id <$> bookmarkedBooks booksData bm)) as Hnd.
  { apply (sublist_NoDup _ (id <$> booksData)); [exact Hids|].
    apply fmap_sublist, sublist_filter. }
  assert (∀ i, i ∈ id <$> bookmarkedBooks booksData bm ↔
               i ∈ bm ∧ ∃ b, b ∈ booksData ∧ id b = i) as Hmem.
  { intros i. rewrite list_elem_of_fmap. split.
    - intros (b & -> & [Hb Hin]%bookmarkedBooks_elem). eauto.
    - intros (Hin & b & Hb & <-). exists b. split; [done|].
      by apply bookmarkedBooks_elem. }
  split.
  - rewrite <-(length_fmap id). apply submseteq_length.
    apply NoDup_submseteq; [done|]. intros i Hi. by apply Hmem.
  - intros Hbm Hall. rewrite <-(length_fmap id). apply Permutation_length.
    apply NoDup_Permutation; [done..|].
    intros i. rewrite Hmem. split; [tauto | eauto].
Qed.

Lemma bookmark_cards_vs_count_witness :
  NoDup (id <$> sampleCatalog) ∧
  length (bookmarkedBooks sampleCatalog ["3"; "9"; "1"])
    ≤ profileBookmarkCount ["3"; "9"; "1"].
Proof.
  assert (NoDup (id <$> sampleCatalog)) as Hnd
    by (apply (bool_decide_unpack (NoDup (id <$> sampleCatalog))); by vm_compute).
  split; [exact Hnd|].
  exact (proj1 (bookmark_cards_vs_count sampleCatalog ["3"; "9"; "1"] Hnd)).
Defined.

(** ** More on the Dashboard *)

Lemma setSpreadFrom_elem (seen arr : list string) (x : string) :
  x ∈ setSpreadFrom seen arr ↔ x ∈ arr ∧ x ∉ seen.
Proof.
  revert seen. induction arr as [|y arr IH]; intros seen; simpl.
  - split; [intros H; inversion H | intros [H _]; inversion H].
  - case_bool_decide as Hy.
    + rewrite IH, elem_of_cons. split; [tauto|].
      intros [[->|Hx] Hseen]; tauto.
    + rewrite !elem_of_cons, IH, elem_of_cons.
      destruct (decide (x = y)) as [->|]; tauto.
Qed.

Lemma setSpreadFrom_NoDup (seen arr : list string) :
  NoDup (setSpreadFrom seen arr).
Proof.
  revert seen. induction arr as [|y arr IH]; intros seen; simpl.
  - apply NoDup_nil_2.
  - case_bool_decide; [apply IH|].
    apply NoDup_cons. split; [|apply IH].
    rewrite setSpreadFrom_elem, elem_of_cons. tauto.
Qed.

Lemma setSpreadFrom_sublist (seen arr : list string) :
  setSpreadFrom seen arr `sublist_of` arr.
Proof.
  revert seen. induction arr as [|y arr IH]; intros seen; simpl; [done|].
  case_bool_decide; [apply sublist_cons | apply sublist_skip]; apply IH.
Qed.

Lemma setSpread_elem (arr : list string) (x : string) :
  x ∈ setSpread arr ↔ x ∈ arr.
Proof.
  unfold setSpread. rewrite setSpreadFrom_elem. split; [tauto|].
  intros Hx. split; [done | intros H; inversion H].
Qed.

Lemma snoc_unless_ext (P Q : Prop) `{!Decision P} `{!Decision Q} (x : string) :
  (P ↔ Q) →
  (if bool_decide P then [] else [x]) = (if bool_decide Q then [] else [x]).
Proof. intros HPQ. by rewrite (bool_decide_ext P Q). Qed.

Lemma setSpreadFrom_snoc (seen arr : list string) (x : string) :
  setSpreadFrom seen (arr ++ [x])
  = setSpreadFrom seen arr ++ (if bool_decide (x ∈ seen ++ arr) then [] else [x]).
Proof.
  revert seen. induction arr as [|y arr IH]; intros seen.
  - simpl. rewrite app_nil_r. by case_bool_decide.
  - change ((y :: arr) ++ [x]) with (y :: (arr ++ [x])).
    cbn [setSpreadFrom]. case_bool_decide as Hy.
    + rewrite IH. f_equal. apply snoc_unless_ext.
      rewrite !elem_of_app, elem_of_cons. split; [tauto|].
      intros [?|[->|?]]; tauto.
    + rewrite IH. simpl. do 2 f_equal. apply snoc_unless_ext.
      rewrite !elem_of_cons, !elem_of_app, !elem_of_cons. tauto.
Qed.

Lemma setSpread_snoc (arr : list string) (x : string) :
  setSpread (arr ++ [x])
  = if decide (x ∈ arr) then setSpread arr else setSpread arr ++ [x].
Proof.
  unfold setSpread. rewrite setSpreadFrom_snoc. simpl.
  case_bool_decide; case_decide; try done; by rewrite ?app_nil_r.
Qed.

Lemma matchesSearch_empty (caseConv : JS.CaseConversion) (b : Book) :
  matchesSearch caseConv [] b = true.
Proof.
  unfold matchesSearch. rewrite JS.toLowerCase_empty.
  by rewrite includes_empty.
Qed.

Lemma filteredBooks_elem (caseConv : JS.CaseConversion) (booksData : list Book)
    (q : jsstring) (g l : string) (b : Book) :
  b ∈ filteredBooks caseConv booksData q g l ↔
  b ∈ booksData ∧ matchesSearch caseConv q b = true ∧
  matchesGenre g b = true ∧ matchesLanguage l b = true.
Proof.
  unfold filteredBooks. rewrite list_elem_of_filter, !andb_True, !Is_true_true.
  tauto.
Qed.

(** X11.  The genre menu of the Dashboard is built by going through the
    catalog in order: it starts as just "all", and each book appends its
    genre at the end unless an earlier book has that genre.  So it lists
    "all" and then every genre of the catalog once, in order of first
    appearance.  Choosing a listed genre other than "all" (empty search, all
    languages) shows exactly the catalog books of that genre, at least one.
    The menu has a repeated entry exactly when some book's genre is itself
    "all". *)
Theorem genres_menu (caseConv : JS.CaseConversion) (booksData : list Book) :
  genres [] = ["all"] ∧
  (∀ (earlier : list Book) (b : Book),
     genres (earlier ++ [b])
     = if decide (genre b ∈ genre <$> earlier) then genres earlier
       else genres earlier ++ [genre b]) ∧
  (∀ g, g ∈ genres booksData ↔ g = "all" ∨ ∃ b, b ∈ booksData ∧ genre b = g) ∧
  NoDup (tail (genres booksData)) ∧
  tail (genres booksData) `sublist_of` (genre <$> booksData) ∧
  (NoDup (genres booksData) ↔ ∀ b, b ∈ booksData → genre b ≠ "all") ∧
  (∀ g, g ∈ genres booksData → g ≠ "all" →
        filteredBooks caseConv booksData [] g "all" ≠ [] ∧
        ∀ b, b ∈ filteredBooks caseConv booksData [] g "all" ↔
             b ∈ booksData ∧ genre b = g).
Proof.
  assert (∀ g, g ∈ setSpread (genre <$> booksData) ↔
               ∃ b, b ∈ booksData ∧ genre b = g) as Hmenu.
  { intros g. rewrite setSpread_elem, list_elem_of_fmap.
    split; [intros (b & -> & Hb) | intros (b & Hb & <-)]; by exists b. }
  split_and!.
  - done.
  - intros earlier b. unfold genres.
    rewrite fmap_app. simpl. rewrite setSpread_snoc. by case_decide.
  - intros g. unfold genres. rewrite elem_of_cons, Hmenu. tauto.
  - apply setSpreadFrom_NoDup.
  - apply setSpreadFrom_sublist.
  - unfold genres. rewrite NoDup_cons, Hmenu. split.
    + intros [Hall _] b Hb Hg. apply Hall. eauto.
    + intros Hnone. split; [|apply setSpreadFrom_NoDup].
      intros (b & Hb & Hg). by apply (Hnone b).
  - intros g Hg Hne.
    assert (∀ b, b ∈ filteredBooks caseConv booksData [] g "all" ↔
                 b ∈ booksData ∧ genre b = g) as Hres.
    { intros b. rewrite filteredBooks_elem, matchesGenre_spec, matchesLanguage_spec.
      pose proof (matchesSearch_empty caseConv b). tauto. }
    split; [|done].
    apply elem_of_cons in Hg as [->|Hg]; [done|].
    apply Hmenu in Hg as (b & Hb & Hgb).
    intros Hnil. assert (b ∈ filteredBooks caseConv booksData [] g "all") as Hin
      by (by apply Hres).
    rewrite Hnil in Hin. inversion Hin.
Qed.

Lemma genres_menu_witness :
  "Classic" ∈ genres sampleCatalog ∧ "Classic" ≠ "all" ∧
  filteredBooks asciiCase sampleCatalog [] "Classic" "all" ≠ [].
Proof.
  assert ("Classic" ∈ genres sampleCatalog) as Hin by (right; right; left).
  assert ("Classic" ≠ "all") as Hne by (intros [=]).
  destruct (genres_menu asciiCase sampleCatalog) as (_ & _ & _ & _ & _ & _ & Hpick).
  split_and!; [exact Hin | exact Hne | exact (proj1 (Hpick "Classic" Hin Hne))].
Defined.

Lemma contains_trans (s t u : jsstring) :
  contains s t → contains t u → contains s u.
Proof.
  intros (a & b & ->) (c & d & ->). exists (a ++ c), (d ++ b).
  by rewrite <-!app_assoc.
Qed.

Lemma filter_sublist_impl {A} (P Q : A → Prop)
    `{!∀ x, Decision (P x)} `{!∀ x, Decision (Q x)} (l : list A) :
  (∀ x, x ∈ l → P x → Q x) → filter P l `sublist_of` filter Q l.
Proof.
  induction l as [|x l IH]; intros Himp; [done|].
  assert (filter P l `sublist_of` filter Q l) as Htl.
  { apply IH. intros y Hy. apply Himp. by right. }
  rewrite !filter_cons. destruct (decide (P x)) as [HP|HP].
  - rewrite decide_True by (apply Himp; [left | done]). by apply sublist_skip.
  - destruct (decide (Q x)); [by apply sublist_cons | done].
Qed.

Lemma matchesSearch_narrows (caseConv : JS.CaseConversion) (q q' : jsstring) (b : Book) :
  contains (JS.toLowerCase caseConv q') (JS.toLowerCase caseConv q) →
  matchesSearch caseConv q' b = true → matchesSearch caseConv q b = true.
Proof.
  intros Hq. rewrite !matchesSearch_spec.
  intros [H|H]; [left | right]; by eapply contains_trans.
Qed.

(** X13.  Refining only narrows the Dashboard: when the lowercased new query
    contains the lowercased current query, the new result is a subsequence
    of the current one, and so is the result after choosing a genre or a
    language instead of "all". *)
Theorem search_narrows (caseConv : JS.CaseConversion) (booksData : list Book)
    (q q' : jsstring) (g l : string) :
  (contains (JS.toLowerCase caseConv q') (JS.toLowerCase caseConv q) →
   filteredBooks caseConv booksData q' g l
     `sublist_of` filteredBooks caseConv booksData q g l) ∧
  filteredBooks caseConv booksData q g l
    `sublist_of` filteredBooks caseConv booksData q "all" l ∧
  filteredBooks caseConv booksData q g l
    `sublist_of` filteredBooks caseConv booksData q g "all".
Proof.
  unfold filteredBooks. split_and!; [intros Hq|..];
    apply filter_sublist_impl; intros b _;
    rewrite !andb_True, !Is_true_true; intros [[Hs Hg] Hl]; split_and!;
    try done.
  by eapply matchesSearch_narrows.
Qed.

Lemma search_narrows_witness :
  contains (JS.toLowerCase asciiCase (lit "Dune")) (JS.toLowerCase asciiCase (lit "DU")) ∧
  filteredBooks asciiCase sampleCatalog (lit "Dune") "all" "all"
    `sublist_of` filteredBooks asciiCase sampleCatalog (lit "DU") "all" "all".
Proof.
  assert (contains (JS.toLowerCase asciiCase (lit "Dune"))
            (JS.toLowerCase asciiCase (lit "DU"))) as Hq
    by (by apply includes_spec).
  split; [exact Hq|].
  exact (proj1 (search_narrows asciiCase sampleCatalog (lit "DU") (lit "Dune") "all" "all") Hq).
Defined.

(** X14.  The Dashboard shows its "No books found" message exactly when the
    grid is empty, that is when no catalog book passes the search and both
    filters; with the initial inputs this happens only for an empty
    catalog. *)
Theorem Dashboard_no_books_message (caseConv : JS.CaseConversion)
    (booksData : list Book) (q : jsstring) (g l : string) :
  (noBooksFound (Dashboard caseConv booksData q g l) = true ↔
   dashboardCards (Dashboard caseConv booksData q g l) = []) ∧
  (noBooksFound (Dashboard caseConv booksData q g l) = true ↔
   ∀ b, b ∈ booksData →
        ¬ (matchesSearch caseConv q b = true ∧ matchesGenre g b = true ∧
           matchesLanguage l b = true)) ∧
  (noBooksFound (Dashboard caseConv booksData [] "all" "all") = true ↔ booksData = []).
Proof.
  assert (∀ q g l, noBooksFound (Dashboard caseConv booksData q g l) = true ↔
                   filteredBooks caseConv booksData q g l = []) as Hmsg.
  { intros q0 g0 l0. unfold Dashboard. simpl. rewrite Nat.eqb_eq.
    by destruct (filteredBooks caseConv booksData q0 g0 l0). }
  split_and!.
  - apply Hmsg.
  - rewrite Hmsg. split.
    + intros Hnil b Hb Hmatch.
      assert (b ∈ filteredBooks caseConv booksData q g l) as Hin
        by (apply filteredBooks_elem; tauto).
      rewrite Hnil in Hin. inversion Hin.
    + intros Hnone.
      destruct (filteredBooks caseConv booksData q g l) as [|b fb] eqn:Hfb; [done|].
      assert (b ∈ filteredBooks caseConv booksData q g l) as Hin by (rewrite Hfb; left).
      apply filteredBooks_elem in Hin as (Hb & Hmatch). by destruct (Hnone b Hb).
  - rewrite Hmsg. unfold filteredBooks.
    rewrite filter_all; [done|]. intros b _.
    by rewrite matchesSearch_empty.
Qed.

(** ** Ratings and reviews on BookDetails *)

Lemma ratingButtons_flags (r : Z) :
  snd <$> ratingButtons r
  = replicate (Z.to_nat (Z.min 5 r)) true
    ++ replicate (5 - Z.to_nat (Z.min 5 r)) false.
Proof.
  unfold ratingButtons. simpl.
  destruct (Z.leb_spec 1 r), (Z.leb_spec 2 r), (Z.leb_spec 3 r),
    (Z.leb_spec 4 r), (Z.leb_spec 5 r); try lia.
  - by replace (Z.to_nat (Z.min 5 r)) with 5%nat by lia.
  - by replace (Z.to_nat (Z.min 5 r)) with 4%nat by lia.
  - by replace (Z.to_nat (Z.min 5 r)) with 3%nat by lia.
  - by replace (Z.to_nat (Z.min 5 r)) with 2%nat by lia.
  - by replace (Z.to_nat (Z.min 5 r)) with 1%nat by lia.
  - by replace (Z.to_nat (Z.min 5 r)) with 0%nat by lia.
Qed.

(** X15.  The rating selector always has the five buttons 1..5, filled from
    the left: the first [min 5 rating] are filled (none for a rating below
    1).  After a click on star [k] exactly the first [k] buttons are filled,
    and a fresh page starts with all five filled. *)
Theorem ratingButtons_filled (r : Z) :
  fst <$> ratingButtons r = [1; 2; 3; 4; 5]%Z ∧
  snd <$> ratingButtons r
    = replicate (Z.to_nat (Z.min 5 r)) true
      ++ replicate (5 - Z.to_nat (Z.min 5 r)) false ∧
  (∀ k s, (1 ≤ k ≤ 5)%Z →
     snd <$> ratingButtons (stRating (step (OpClickStar k) s))
     = replicate (Z.to_nat k) true ++ replicate (5 - Z.to_nat k) false) ∧
  (∀ catalog, snd <$> ratingButtons (stRating (initialState catalog))
              = replicate 5 true).
Proof.
  split_and!; [done | apply ratingButtons_flags | | done].
  intros k s Hk. change (stRating (step (OpClickStar k) s)) with k.
  rewrite ratingButtons_flags.
  by replace (Z.min 5 k) with k by lia.
Qed.

Lemma ratingButtons_filled_witness :
  (1 ≤ 3 ≤ 5)%Z ∧
  snd <$> ratingButtons (stRating (step (OpClickStar 3) (initialState sampleCatalog)))
  = [true; true; true; false; false].
Proof.
  assert (1 ≤ 3 ≤ 5)%Z as Hk by lia.
  split; [exact Hk|].
  destruct (ratingButtons_filled 0) as (_ & _ & Hclick & _).
  exact (Hclick 3%Z (initialState sampleCatalog) Hk).
Defined.

(** X16.  The reviews list renders exactly when every review's rating is an
    integer from 0 to the engine's limit for spread arrays (and below
    2^32); a rating that is not an integer, is negative or is 2^32 or more
    makes it throw whatever that limit is.  When it renders there is one row
    per review, in the order of the reviews, showing the review's user and
    comment and as many stars as its rating. *)
Theorem reviewRows_spec (spreadLimit : Z) (rs : list Review) :
  (is_Some (reviewRows spreadLimit rs) ↔
   ∀ r, r ∈ rs →
        ∃ z, rating r = Integral z ∧ (0 ≤ z < 2 ^ 32)%Z ∧ (z ≤ spreadLimit)%Z) ∧
  ((∃ r, r ∈ rs ∧ (rating r = NonIntegral ∨
                   ∃ z, rating r = Integral z ∧ (z < 0 ∨ 2 ^ 32 ≤ z)%Z)) →
   reviewRows spreadLimit rs = None) ∧
  (∀ rows, reviewRows spreadLimit rs = Some rows →
     length rows = length rs ∧
     ∀ i r, rs !! i = Some r →
       ∃ row, rows !! i = Some row ∧ rowUser row = user r ∧
              rating r = Integral (Z.of_nat (rowStars row)) ∧
              rowComment row = comment r).
Proof.
  split_and!.
  - unfold reviewRows. rewrite mapM_is_Some, Forall_forall.
    split; intros Hall r Hr; by apply reviewRow_is_Some, Hall.
  - intros (r & Hr & Hbad). apply reviewRows_invalid. exists r. split; [done|].
    intros (z & Hz & Hrange & _).
    destruct Hbad as [Hbad|(z' & Hz' & Hbad)]; [congruence|].
    rewrite Hz in Hz'. injection Hz' as <-. lia.
  - intros rows Hrows%reviewRows_shows. unfold showsReviews in Hrows. split.
    + symmetry. by eapply Forall2_length.
    + intros i r Hi.
      destruct (Forall2_lookup_l _ _ _ _ _ Hrows Hi) as (row & Hrow & Hr).
      by exists row.
Qed.

Lemma reviewRows_spec_witness :
  (∀ r, r ∈ [sampleReview] →
        ∃ z, rating r = Integral z ∧ (0 ≤ z < 2 ^ 32)%Z ∧ (z ≤ 1000)%Z) ∧
  is_Some (reviewRows 1000 [sampleReview]) ∧
  (∃ r, r ∈ [badReview] ∧ (rating r = NonIntegral ∨
                            ∃ z, rating r = Integral z ∧ (z < 0 ∨ 2 ^ 32 ≤ z)%Z)) ∧
  reviewRows 1000 [badReview] = None.
Proof.
  assert (∀ r, r ∈ [sampleReview] →
               ∃ z, rating r = Integral z ∧ (0 ≤ z < 2 ^ 32)%Z ∧ (z ≤ 1000)%Z) as Hall.
  { intros r ->%list_elem_of_singleton. exists 5%Z. simpl. split_and!; done || lia. }
  assert (∃ r, r ∈ [badReview] ∧ (rating r = NonIntegral ∨
            ∃ z, rating r = Integral z ∧ (z < 0 ∨ 2 ^ 32 ≤ z)%Z)) as Hbad.
  { exists badReview. split; [left|]. right. exists (-1)%Z. split; [done | lia]. }
  destruct (reviewRows_spec 1000 [sampleReview]) as (Hiff & _ & _).
  destruct (reviewRows_spec 1000 [badReview]) as (_ & Hthrows & _).
  split_and!; [exact Hall | exact (proj2 Hiff Hall) | exact Hbad | exact (Hthrows Hbad)].
Defined.

(** ** The sidebar *)

(** X17.  Whatever the current path is, the sidebar highlights at most one
    menu entry, the one whose path equals it; some entry is highlighted
    exactly on the four menu paths, and none on a book's details page. *)
Theorem sidebar_active_item (pathname : string) :
  length (activeItems pathname) ≤ 1 ∧
  (∀ item, item ∈ activeItems pathname ↔ item ∈ menuItems ∧ path item = pathname) ∧
  (activeItems pathname ≠ [] ↔ pathname ∈ path <$> menuItems) ∧
  (∀ bookId, activeItems ("/book/" +:+ bookId) = []).
Proof.
  assert (∀ item, item ∈ activeItems pathname ↔
                  item ∈ menuItems ∧ path item = pathname) as Hmem.
  { intros item. unfold activeItems, isActive.
    rewrite list_elem_of_filter, Is_true_true, String.eqb_eq.
    split; intros [? ?]; split; congruence. }
  split_and!.
  - unfold activeItems, menuItems, isActive. rewrite !filter_cons, filter_nil. simpl.
    destruct (String.eqb_spec pathname "/dashboard") as [->|?]; [simpl; lia|].
    destruct (String.eqb_spec pathname "/recommendations") as [->|?]; [simpl; lia|].
    destruct (String.eqb_spec pathname "/bookmarks") as [->|?]; [simpl; lia|].
    destruct (String.eqb_spec pathname "/profile") as [->|?]; simpl; lia.
  - exact Hmem.
  - rewrite list_elem_of_fmap. split.
    + intros Hne. destruct (activeItems pathname) as [|item rest]; [done|].
      destruct (proj1 (Hmem item)) as [Hin <-]; [left|]. by exists item.
    + intros (item & -> & Hin) Hnil.
      assert (item ∈ activeItems (path item)) as Hact by (by apply Hmem).
      rewrite Hnil in Hact. inversion Hact.
  - intros bookId. by vm_compute.
Qed.

(** ** From a card to its details page *)

(** X18.  Every card on the Dashboard or on the Bookmarks page opens a
    details page that is not the "Book not found" fallback: for the route
    parameter equal to the card's id, [BookDetails] is decided by a catalog
    book with that id, whose details it shows when each of that book's
    reviews has a rating that can be drawn, and whose render throws when one
    has not. *)
Theorem card_opens_details (caseConv : JS.CaseConversion) (spreadLimit : Z)
    (booksData : list Book) (q : jsstring) (g l : string)
    (cardBookmarks bm : list string) (review : string) (ratingSel : Z) (b : Book) :
  b ∈ filteredBooks caseConv booksData q g l ∨
  b ∈ bookmarkedBooks booksData cardBookmarks →
  BookDetails spreadLimit booksData (Some (id b)) bm review ratingSel ≠ BookNotFound ∧
  ∃ book, book ∈ booksData ∧ id book = id b ∧
    ((∀ r, r ∈ reviews book → validRating spreadLimit r) →
     ∃ page,
       BookDetails spreadLimit booksData (Some (id b)) bm review ratingSel
         = BookFound page ∧
       showsDetails book bm review ratingSel page) ∧
    ((∃ r, r ∈ reviews book ∧ ¬ validRating spreadLimit r) →
     BookDetails spreadLimit booksData (Some (id b)) bm review ratingSel = RenderThrows).
Proof.
  intros Hcard.
  assert (b ∈ booksData) as Hb.
  { destruct Hcard as [Hin|Hin].
    - by apply filteredBooks_elem in Hin as [? _].
    - by apply bookmarkedBooks_elem in Hin as [? _]. }
  destruct (BookDetails_present spreadLimit booksData (Some (id b)) bm review ratingSel)
    as (book & before & after & Hsplit & [= Hid] & _ & Hview); [by exists b|].
  split.
  - rewrite Hview. by destruct (reviewRows spreadLimit (reviews book)).
  - exists book. split_and!; [| done | by eapply drawn_or_thrown..].
    rewrite Hsplit. apply elem_of_app. right. left.
Qed.

Lemma card_opens_details_witness :
  bookC ∈ filteredBooks asciiCase sampleCatalog (lit "dune") "all" "English" ∧
  BookDetails 1000 sampleCatalog (Some (id bookC)) [] "" 5 ≠ BookNotFound.
Proof.
  assert (bookC ∈ filteredBooks asciiCase sampleCatalog (lit "dune") "all" "English")
    as Hcard.
  { apply (bool_decide_unpack
             (bookC ∈ filteredBooks asciiCase sampleCatalog (lit "dune") "all" "English")).
    by vm_compute. }
  split; [exact Hcard|].
  exact (proj1 (card_opens_details asciiCase 1000 sampleCatalog (lit "dune")
                  "all" "English" [] [] "" 5 bookC (or_introl Hcard))).
Defined.

(** ** The language menu *)

(** X19.  The language menu of the Dashboard is built like the genre menu:
    it starts as just "all", and going through the catalog in order each
    book appends its language at the end unless an earlier book has it.
    Choosing a listed language other than "all" (empty search, all genres)
    shows exactly the catalog books in that language, at least one. *)
Theorem languages_menu (caseConv : JS.CaseConversion) (booksData : list Book) :
  languages [] = ["all"] ∧
  (∀ (earlier : list Book) (b : Book),
     languages (earlier ++ [b])
     = if decide (language b ∈ language <$> earlier) then languages earlier
       else languages earlier ++ [language b]) ∧
  (∀ l, l ∈ languages booksData ↔ l = "all" ∨ ∃ b, b ∈ booksData ∧ language b = l) ∧
  NoDup (tail (languages booksData)) ∧
  tail (languages booksData) `sublist_of` (language <$> booksData) ∧
  (∀ l, l ∈ languages booksData → l ≠ "all" →
        filteredBooks caseConv booksData [] "all" l ≠ [] ∧
        ∀ b, b ∈ filteredBooks caseConv booksData [] "all" l ↔
             b ∈ booksData ∧ language b = l).
Proof.
  assert (∀ l, l ∈ setSpread (language <$> booksData) ↔
               ∃ b, b ∈ booksData ∧ language b = l) as Hmenu.
  { intros l. rewrite setSpread_elem, list_elem_of_fmap.
    split; [intros (b & -> & Hb) | intros (b & Hb & <-)]; by exists b. }
  split_and!.
  - done.
  - intros earlier b. unfold languages.
    rewrite fmap_app. simpl. rewrite setSpread_snoc. by case_decide.
  - intros l. unfold languages. rewrite elem_of_cons, Hmenu. tauto.
  - apply setSpreadFrom_NoDup.
  - apply setSpreadFrom_sublist.
  - intros l Hl Hne.
    assert (∀ b, b ∈ filteredBooks caseConv booksData [] "all" l ↔
                 b ∈ booksData ∧ language b = l) as Hres.
    { intros b. rewrite filteredBooks_elem, matchesGenre_spec, matchesLanguage_spec.
      pose proof (matchesSearch_empty caseConv b). tauto. }
    split; [|done].
    apply elem_of_cons in Hl as [->|Hl]; [done|].
    apply Hmenu in Hl as (b & Hb & Hlb).
    intros Hnil. assert (b ∈ filteredBooks caseConv booksData [] "all" l) as Hin
      by (by apply Hres).
    rewrite Hnil in Hin. inversion Hin.
Qed.

Lemma languages_menu_witness :
  "Spanish" ∈ languages sampleCatalog ∧ "Spanish" ≠ "all" ∧
  filteredBooks asciiCase sampleCatalog [] "all" "Spanish" ≠ [].
Proof.
  assert ("Spanish" ∈ languages sampleCatalog) as Hin by (right; right; left).
  assert ("Spanish" ≠ "all") as Hne by (intros [=]).
  destruct (languages_menu asciiCase sampleCatalog) as (_ & _ & _ & _ & _ & Hpick).
  split_and!; [exact Hin | exact Hne | exact (proj1 (Hpick "Spanish" Hin Hne))].
Defined.
